(** * ToggleTalk server: a shallow embedding of [ToggleTalkBotServer.py]

    The development follows the Python source function by function.

    - Text is a [string] of bytes.  [lower] folds the ASCII letters only,
      white space is the ASCII part of [str.isspace], and the digit class of
      the scheduling pattern is [0-9].
    - Devices, statuses and tasks are the ones the server itself creates:
      the three keys of [home_devices], ['on'] and ['off'], and task dicts
      with these in them.
    - The server object and the files it owns are one [State] record; the
      platform (GPIO library, file system failures, clock, hashing) is a
      [World] of oracles indexed by the number of calls made so far.  A
      file operation that raises leaves the file as it was.
    - A [datetime] is the number of microseconds since 0001-01-01T00:00:00;
      [datetime + timedelta] raises [OverflowError] outside the range Python
      can represent, so the functions that compute a due time live in a
      state-and-exception monad.
    - Console rendering and the [message_history] deque only feed the
      terminal display and are left out, and so are the clock readings made
      for them. *)

From Stdlib Require Import String Ascii List ZArith Lia Bool Arith DecimalString.
From Stdlib Require Import Sorted Permutation.
Import ListNotations.

Open Scope list_scope.
Open Scope string_scope.

(** ** Python string primitives *)

Module Py.

(** [c.lower()] on one ASCII character. *)
Definition lower_ascii (c : ascii) : ascii :=
  let n := nat_of_ascii c in
  if (65 <=? n)%nat && (n <=? 90)%nat then ascii_of_nat (n + 32) else c.

(** [s.lower()] *)
Fixpoint lower (s : string) : string :=
  match s with
  | EmptyString => EmptyString
  | String c r => String (lower_ascii c) (lower r)
  end.

(** [needle in hay] for two strings. *)
Fixpoint contains (needle hay : string) : bool :=
  if prefix needle hay then true
  else match hay with
       | EmptyString => false
       | String _ r => contains needle r
       end.

(** [s.startswith(p)] *)
Definition startswith (p s : string) : bool := prefix p s.

(** [c.isspace()] restricted to ASCII: TAB..CR, FS..US and the blank. *)
Definition isspace (c : ascii) : bool :=
  let n := nat_of_ascii c in
  ((9 <=? n)%nat && (n <=? 13)%nat) || ((28 <=? n)%nat && (n <=? 32)%nat).

(** The class [\d] restricted to ASCII. *)
Definition isdigit (c : ascii) : bool :=
  let n := nat_of_ascii c in (48 <=? n)%nat && (n <=? 57)%nat.

(** [s.split()]: the maximal runs of non-blank characters, in order.
    [cur] is the token being read. *)
Fixpoint split_aux (cur : string) (s : string) : list string :=
  match s with
  | EmptyString =>
      match cur with EmptyString => [] | _ => [cur] end
  | String c r =>
      if isspace c
      then match cur with
           | EmptyString => split_aux EmptyString r
           | _ => cur :: split_aux EmptyString r
           end
      else split_aux (cur ++ String c EmptyString) r
  end.

Definition split (s : string) : list string := split_aux EmptyString s.

(** [x in l] for a list of strings. *)
Definition mem (x : string) (l : list string) : bool :=
  existsb (String.eqb x) l.

(** The longest prefix of [s] whose characters satisfy [p], and the rest. *)
Fixpoint span (p : ascii -> bool) (s : string) : string * string :=
  match s with
  | EmptyString => (EmptyString, EmptyString)
  | String c r =>
      if p c then let '(a, b) := span p r in (String c a, b)
      else (EmptyString, s)
  end.

(** [s[n:]] *)
Fixpoint drop (n : nat) (s : string) : string :=
  match n, s with
  | O, _ => s
  | S k, EmptyString => EmptyString
  | S k, String _ r => drop k r
  end.

(** [int(s)] for a string of decimal digits. *)
Fixpoint int_digits (acc : Z) (s : string) : Z :=
  match s with
  | EmptyString => acc
  | String c r => int_digits (10 * acc + (Z.of_nat (nat_of_ascii c) - 48)) r
  end.

Definition int (s : string) : Z := int_digits 0 s.

(** [str(n)] for an integer. *)
Definition str_of_Z (n : Z) : string := NilZero.string_of_int (Z.to_int n).

(** [f"{n:02d}"] for [0 <= n]. *)
Definition fmt_02d (n : Z) : string :=
  if (n <? 10)%Z then "0" ++ str_of_Z n else str_of_Z n.

(** [f"{n:2d}"] for [0 <= n]: right-aligned in two columns. *)
Definition fmt_2d (n : Z) : string :=
  if (n <? 10)%Z then " " ++ str_of_Z n else str_of_Z n.

(** ["sep".join(l)] *)
Fixpoint join (sep : string) (l : list string) : string :=
  match l with
  | [] => EmptyString
  | [x] => x
  | x :: r => x ++ sep ++ join sep r
  end.

(** [s * n] *)
Fixpoint repeat_str (s : string) (n : nat) : string :=
  match n with
  | O => EmptyString
  | S k => s ++ repeat_str s k
  end.

(** [l[-n:]] for [0 < n]: the last [n] elements. *)
Definition last_n {A} (n : nat) (l : list A) : list A :=
  skipn (length l - n) l.

End Py.

(** ** The scheduling pattern
    [re.search(r'in\s+(\d+)\s+(second|seconds|minute|minutes|hour|hours)', text)] *)

Module Re.

(** The alternation, in the order the pattern lists it. *)
Definition units : list string :=
  ["second"; "seconds"; "minute"; "minutes"; "hour"; "hours"].

(** First alternative that matches at the start of [s]. *)
Fixpoint first_unit (alts : list string) (s : string) : option string :=
  match alts with
  | [] => None
  | u :: r => if prefix u s then Some u else first_unit r s
  end.

(** A match anchored at the start of [s].  The three repetitions are over
    disjoint classes followed by a letter, so the greedy run is the only
    candidate.  Returns group 1 and group 2. *)
Definition match_here (s : string) : option (string * string) :=
  if prefix "in" s then
    let '(ws1, r1) := Py.span Py.isspace (Py.drop 2 s) in
    match ws1 with
    | EmptyString => None
    | _ =>
        let '(ds, r2) := Py.span Py.isdigit r1 in
        match ds with
        | EmptyString => None
        | _ =>
            let '(ws2, r3) := Py.span Py.isspace r2 in
            match ws2 with
            | EmptyString => None
            | _ =>
                match first_unit units r3 with
                | Some u => Some (ds, u)
                | None => None
                end
            end
        end
    end
  else None.

(** [re.search]: the leftmost position with a match. *)
Fixpoint search (s : string) : option (string * string) :=
  match match_here s with
  | Some m => Some m
  | None =>
      match s with
      | EmptyString => None
      | String _ r => search r
      end
  end.

End Re.

(** ** Data model *)

(** Keys of [home_devices]. *)
Inductive device := light | ac | washing_machine.

(** The strings ['on'] and ['off']: a device status and a task action. *)
Inductive status := on | off.

(** Keys of [GPIO_PINS]. *)
Inductive gpio_name :=
  pin_light | pin_ac | pin_washing_machine | laser_module | ldr_sensor | buzzer.

Definition device_eqb (a b : device) : bool :=
  match a, b with
  | light, light | ac, ac | washing_machine, washing_machine => true
  | _, _ => false
  end.

Definition status_eqb (a b : status) : bool :=
  match a, b with
  | on, on | off, off => true
  | _, _ => false
  end.

(** The key of [GPIO_PINS] that carries the relay of a device. *)
Definition relay (d : device) : gpio_name :=
  match d with
  | light => pin_light
  | ac => pin_ac
  | washing_machine => pin_washing_machine
  end.

(** The status as Python prints it in an f-string. *)
Definition status_str (a : status) : string :=
  match a with on => "on" | off => "off" end.

(** [status.title()] *)
Definition status_title (a : status) : string :=
  match a with on => "On" | off => "Off" end.

(** A scheduled task: the dict
    [{'device', 'action', 'scheduled_time', 'user_name'}].  [user_name] is
    read with [task.get('user_name', 'System')], hence the option. *)
Record Task := {
  task_device : device;
  task_action : status;
  scheduled_time : Z;
  task_user_name : option string
}.

(** A pending notification: the dict [{'text', 'timestamp', 'id'}]. *)
Record Notification := {
  ntf_text : string;
  ntf_timestamp : string;
  ntf_id : Z
}.

(** One record of the event log, as [log_event] writes it; [None] is the
    JSON [null] of an argument left at its default. *)
Record EventLogEntry := {
  log_timestamp : string;
  log_event_type : string;
  log_message : string;
  log_user_name : option string;
  log_user_id : option Z
}.

(** A line of [events.log]: a record, or text [json.loads] rejects. *)
Inductive log_line :=
| EntryLine (e : EventLogEntry)
| BadLine.

(** What a JSON file of the server holds. *)
Inductive file (A : Type) :=
| Missing                 (* [os.path.exists] is false *)
| Garbled (raw : string)  (* [json.load] raises [JSONDecodeError] *)
| Holds (a : A).
Arguments Missing {A}.
Arguments Garbled {A} raw.
Arguments Holds {A} a.

(** An element of the scheduled-tasks file: a task, or an entry whose
    ['scheduled_time'] is rejected by [datetime.fromisoformat]. *)
Inductive stored_task :=
| GoodTask (t : Task)
| BadTask.

Definition option_string_eqb (a b : option string) : bool :=
  match a, b with
  | Some x, Some y => String.eqb x y
  | None, None => true
  | _, _ => false
  end.

(** Equality of two task dicts, as [in] and [list.remove] test it. *)
Definition Task_eqb (a b : Task) : bool :=
  device_eqb (task_device a) (task_device b)
  && status_eqb (task_action a) (task_action b)
  && Z.eqb (scheduled_time a) (scheduled_time b)
  && option_string_eqb (task_user_name a) (task_user_name b).

(** ** Dates and times *)

Module Datetime.

Definition us_per_second : Z := 1000000.

(** One past [datetime.max]: 3652059 days of microseconds. *)
Definition max_excl : Z := 3652059 * 86400 * us_per_second.

(** [timedelta(seconds=n)] for [0 <= n]; the constructor raises
    [OverflowError] above 999999999 days. *)
Definition timedelta_seconds (n : Z) : option Z :=
  if (n / 86400 <=? 999999999)%Z then Some (n * us_per_second)%Z else None.

Definition timedelta_minutes (n : Z) : option Z := timedelta_seconds (60 * n).
Definition timedelta_hours (n : Z) : option Z := timedelta_seconds (3600 * n).

(** [t + d] for [0 <= d]; raises [OverflowError] past [datetime.max]. *)
Definition add (t : Z) (d : option Z) : option Z :=
  match d with
  | Some d => if (t + d <? max_excl)%Z then Some (t + d)%Z else None
  | None => None
  end.

(** [t.strftime("%H:%M:%S")] *)
Definition strftime_HMS (t : Z) : string :=
  let s := (t / us_per_second)%Z in
  Py.fmt_02d ((s / 3600) mod 24) ++ ":" ++ Py.fmt_02d ((s / 60) mod 60)
    ++ ":" ++ Py.fmt_02d (s mod 60).

End Datetime.

(** ** The platform *)

(** Everything the server asks of its environment.  The oracles are indexed
    by the number of earlier calls of the same kind. *)
Record World := {
  (* [GPIO_AVAILABLE and GPIO is not None] *)
  GPIO_AVAILABLE : bool;
  GPIO_PINS : gpio_name -> Z;
  (* the n-th call into [RPi.GPIO]: [Some e] when it raises, with [str(e)] *)
  gpio_error : nat -> option string;
  (* what the n-th call returns when it is [GPIO.input]; [true] is HIGH *)
  gpio_input : nat -> bool;
  (* the n-th file operation: [Some e] when it raises, with [str(e)] *)
  io_error : nat -> option string;
  (* the n-th reading of the clock, as [datetime.now()] ... *)
  datetime_now : nat -> Z;
  (* ... and as [int(time.time())] *)
  time_time : nat -> Z;
  (* [t.isoformat()] *)
  isoformat : Z -> string;
  (* [datetime.fromisoformat(s).strftime("%Y-%m-%d %H:%M:%S")];
     [None] when [fromisoformat] raises *)
  iso_display : string -> option string;
  (* [int(hashlib.md5(s.encode()).hexdigest()[:8], 16)] *)
  md5_id : string -> Z
}.

(** The server object, the module globals it touches, the files it owns and
    the call counters of the oracles. *)
Record State := {
  home_devices : device -> status;
  security_system_active : bool;
  chat_ids : list Z;
  scheduled_tasks : list Task;
  pending_notifications : list Notification;
  notification_queue : list string;
  pin_level : Z -> bool;
  events_log_file : option (list log_line);
  chat_ids_file : file (list Z);
  scheduled_tasks_file : file (list stored_task);
  pending_notifications_file : file (list Notification);
  backup_files : list (string * string);
  gpio_calls : nat;
  io_calls : nat;
  clock_calls : nat
}.

Definition set_home_devices (v : device -> status) (s : State) : State :=
  {| home_devices := v; security_system_active := security_system_active s; chat_ids :=
     chat_ids s; scheduled_tasks := scheduled_tasks s; pending_notifications :=
     pending_notifications s; notification_queue := notification_queue s; pin_level :=
     pin_level s; events_log_file := events_log_file s; chat_ids_file := chat_ids_file s;
     scheduled_tasks_file := scheduled_tasks_file s; pending_notifications_file :=
     pending_notifications_file s; backup_files := backup_files s; gpio_calls :=
     gpio_calls s; io_calls := io_calls s; clock_calls := clock_calls s |}.

Definition set_security_system_active (v : bool) (s : State) : State :=
  {| home_devices := home_devices s; security_system_active := v; chat_ids := chat_ids s;
     scheduled_tasks := scheduled_tasks s; pending_notifications := pending_notifications s;
     notification_queue := notification_queue s; pin_level := pin_level s; events_log_file :=
     events_log_file s; chat_ids_file := chat_ids_file s; scheduled_tasks_file :=
     scheduled_tasks_file s; pending_notifications_file := pending_notifications_file s;
     backup_files := backup_files s; gpio_calls := gpio_calls s; io_calls := io_calls s;
     clock_calls := clock_calls s |}.

Definition set_chat_ids (v : list Z) (s : State) : State :=
  {| home_devices := home_devices s; security_system_active := security_system_active s;
     chat_ids := v; scheduled_tasks := scheduled_tasks s; pending_notifications :=
     pending_notifications s; notification_queue := notification_queue s; pin_level :=
     pin_level s; events_log_file := events_log_file s; chat_ids_file := chat_ids_file s;
     scheduled_tasks_file := scheduled_tasks_file s; pending_notifications_file :=
     pending_notifications_file s; backup_files := backup_files s; gpio_calls :=
     gpio_calls s; io_calls := io_calls s; clock_calls := clock_calls s |}.

Definition set_scheduled_tasks (v : list Task) (s : State) : State :=
  {| home_devices := home_devices s; security_system_active := security_system_active s;
     chat_ids := chat_ids s; scheduled_tasks := v; pending_notifications :=
     pending_notifications s; notification_queue := notification_queue s; pin_level :=
     pin_level s; events_log_file := events_log_file s; chat_ids_file := chat_ids_file s;
     scheduled_tasks_file := scheduled_tasks_file s; pending_notifications_file :=
     pending_notifications_file s; backup_files := backup_files s; gpio_calls :=
     gpio_calls s; io_calls := io_calls s; clock_calls := clock_calls s |}.

Definition set_pending_notifications (v : list Notification) (s : State) : State :=
  {| home_devices := home_devices s; security_system_active := security_system_active s;
     chat_ids := chat_ids s; scheduled_tasks := scheduled_tasks s; pending_notifications :=
     v; notification_queue := notification_queue s; pin_level := pin_level s; events_log_file
     := events_log_file s; chat_ids_file := chat_ids_file s; scheduled_tasks_file :=
     scheduled_tasks_file s; pending_notifications_file := pending_notifications_file s;
     backup_files := backup_files s; gpio_calls := gpio_calls s; io_calls := io_calls s;
     clock_calls := clock_calls s |}.

Definition set_notification_queue (v : list string) (s : State) : State :=
  {| home_devices := home_devices s; security_system_active := security_system_active s;
     chat_ids := chat_ids s; scheduled_tasks := scheduled_tasks s; pending_notifications :=
     pending_notifications s; notification_queue := v; pin_level := pin_level s;
     events_log_file := events_log_file s; chat_ids_file := chat_ids_file s;
     scheduled_tasks_file := scheduled_tasks_file s; pending_notifications_file :=
     pending_notifications_file s; backup_files := backup_files s; gpio_calls :=
     gpio_calls s; io_calls := io_calls s; clock_calls := clock_calls s |}.

Definition set_pin_level (v : Z -> bool) (s : State) : State :=
  {| home_devices := home_devices s; security_system_active := security_system_active s;
     chat_ids := chat_ids s; scheduled_tasks := scheduled_tasks s; pending_notifications :=
     pending_notifications s; notification_queue := notification_queue s; pin_level := v;
     events_log_file := events_log_file s; chat_ids_file := chat_ids_file s;
     scheduled_tasks_file := scheduled_tasks_file s; pending_notifications_file :=
     pending_notifications_file s; backup_files := backup_files s; gpio_calls :=
     gpio_calls s; io_calls := io_calls s; clock_calls := clock_calls s |}.

Definition set_events_log_file (v : option (list log_line)) (s : State) : State :=
  {| home_devices := home_devices s; security_system_active := security_system_active s;
     chat_ids := chat_ids s; scheduled_tasks := scheduled_tasks s; pending_notifications :=
     pending_notifications s; notification_queue := notification_queue s; pin_level :=
     pin_level s; events_log_file := v; chat_ids_file := chat_ids_file s;
     scheduled_tasks_file := scheduled_tasks_file s; pending_notifications_file :=
     pending_notifications_file s; backup_files := backup_files s; gpio_calls :=
     gpio_calls s; io_calls := io_calls s; clock_calls := clock_calls s |}.

Definition set_chat_ids_file (v : file (list Z)) (s : State) : State :=
  {| home_devices := home_devices s; security_system_active := security_system_active s;
     chat_ids := chat_ids s; scheduled_tasks := scheduled_tasks s; pending_notifications :=
     pending_notifications s; notification_queue := notification_queue s; pin_level :=
     pin_level s; events_log_file := events_log_file s; chat_ids_file := v;
     scheduled_tasks_file := scheduled_tasks_file s; pending_notifications_file :=
     pending_notifications_file s; backup_files := backup_files s; gpio_calls :=
     gpio_calls s; io_calls := io_calls s; clock_calls := clock_calls s |}.

Definition set_scheduled_tasks_file (v : file (list stored_task)) (s : State) : State :=
  {| home_devices := home_devices s; security_system_active := security_system_active s;
     chat_ids := chat_ids s; scheduled_tasks := scheduled_tasks s; pending_notifications :=
     pending_notifications s; notification_queue := notification_queue s; pin_level :=
     pin_level s; events_log_file := events_log_file s; chat_ids_file := chat_ids_file s;
     scheduled_tasks_file := v; pending_notifications_file := pending_notifications_file s;
     backup_files := backup_files s; gpio_calls := gpio_calls s; io_calls := io_calls s;
     clock_calls := clock_calls s |}.

Definition set_pending_notifications_file (v : file (list Notification)) (s : State) : State :=
  {| home_devices := home_devices s; security_system_active := security_system_active s;
     chat_ids := chat_ids s; scheduled_tasks := scheduled_tasks s; pending_notifications :=
     pending_notifications s; notification_queue := notification_queue s; pin_level :=
     pin_level s; events_log_file := events_log_file s; chat_ids_file := chat_ids_file s;
     scheduled_tasks_file := scheduled_tasks_file s; pending_notifications_file := v;
     backup_files := backup_files s; gpio_calls := gpio_calls s; io_calls := io_calls s;
     clock_calls := clock_calls s |}.

Definition set_backup_files (v : list (string * string)) (s : State) : State :=
  {| home_devices := home_devices s; security_system_active := security_system_active s;
     chat_ids := chat_ids s; scheduled_tasks := scheduled_tasks s; pending_notifications :=
     pending_notifications s; notification_queue := notification_queue s; pin_level :=
     pin_level s; events_log_file := events_log_file s; chat_ids_file := chat_ids_file s;
     scheduled_tasks_file := scheduled_tasks_file s; pending_notifications_file :=
     pending_notifications_file s; backup_files := v; gpio_calls := gpio_calls s; io_calls :=
     io_calls s; clock_calls := clock_calls s |}.

Definition set_gpio_calls (v : nat) (s : State) : State :=
  {| home_devices := home_devices s; security_system_active := security_system_active s;
     chat_ids := chat_ids s; scheduled_tasks := scheduled_tasks s; pending_notifications :=
     pending_notifications s; notification_queue := notification_queue s; pin_level :=
     pin_level s; events_log_file := events_log_file s; chat_ids_file := chat_ids_file s;
     scheduled_tasks_file := scheduled_tasks_file s; pending_notifications_file :=
     pending_notifications_file s; backup_files := backup_files s; gpio_calls := v; io_calls
     := io_calls s; clock_calls := clock_calls s |}.

Definition set_io_calls (v : nat) (s : State) : State :=
  {| home_devices := home_devices s; security_system_active := security_system_active s;
     chat_ids := chat_ids s; scheduled_tasks := scheduled_tasks s; pending_notifications :=
     pending_notifications s; notification_queue := notification_queue s; pin_level :=
     pin_level s; events_log_file := events_log_file s; chat_ids_file := chat_ids_file s;
     scheduled_tasks_file := scheduled_tasks_file s; pending_notifications_file :=
     pending_notifications_file s; backup_files := backup_files s; gpio_calls :=
     gpio_calls s; io_calls := v; clock_calls := clock_calls s |}.

Definition set_clock_calls (v : nat) (s : State) : State :=
  {| home_devices := home_devices s; security_system_active := security_system_active s;
     chat_ids := chat_ids s; scheduled_tasks := scheduled_tasks s; pending_notifications :=
     pending_notifications s; notification_queue := notification_queue s; pin_level :=
     pin_level s; events_log_file := events_log_file s; chat_ids_file := chat_ids_file s;
     scheduled_tasks_file := scheduled_tasks_file s; pending_notifications_file :=
     pending_notifications_file s; backup_files := backup_files s; gpio_calls :=
     gpio_calls s; io_calls := io_calls s; clock_calls := v |}.

(** ** State and exceptions *)

(** The one exception that escapes the functions below: the date
    arithmetic of the scheduling parser.  (A numeral of several thousand
    digits is refused by [int] before that, on the interpreters that limit
    the conversion; the model lets it reach the date arithmetic, which
    refuses it too.) *)
Inductive exn := OverflowError.

Inductive result (A : Type) :=
| Ok (a : A)
| Raise (e : exn).
Arguments Ok {A} a.
Arguments Raise {A} e.

(** A method of the server: it reads and updates the state and either
    returns or raises. *)
Definition M (A : Type) : Type := State -> result A * State.

Definition ret {A} (a : A) : M A := fun s => (Ok a, s).

Definition bind {A B} (m : M A) (k : A -> M B) : M B :=
  fun s => match m s with
           | (Ok a, s') => k a s'
           | (Raise e, s') => (Raise e, s')
           end.

Definition raise {A} (e : exn) : M A := fun s => (Raise e, s).
Definition gets {A} (f : State -> A) : M A := fun s => (Ok (f s), s).
Definition modify (f : State -> State) : M unit := fun s => (Ok tt, f s).

(** [try: m  except Exception: h] *)
Definition try_except {A} (m : M A) (h : exn -> M A) : M A :=
  fun s => match m s with
           | (Ok a, s') => (Ok a, s')
           | (Raise e, s') => h e s'
           end.

Declare Scope server_scope.
Delimit Scope server_scope with server.
Notation "x <- m ;; k" := (bind m (fun x => k))
  (at level 100, m at next level, right associativity) : server_scope.
Notation "m ;; k" := (bind m (fun _ => k))
  (at level 100, right associativity) : server_scope.
Open Scope server_scope.
Open Scope string_scope.

(** [datetime + timedelta] with its [OverflowError]. *)
Definition checked (r : option Z) : M Z :=
  match r with
  | Some t => ret t
  | None => raise OverflowError
  end.

Definition nl : string := String (ascii_of_nat 10) EmptyString.

Definition CHAT_IDS_FILE : string := "chat_ids.json".
Definition SCHEDULED_TASKS_FILE : string := "scheduled_tasks.json".
Definition PENDING_NOTIFICATIONS_FILE : string := "pending_notifications.json".

(** [GPIO.HIGH] and [GPIO.LOW] *)
Definition HIGH : bool := true.
Definition LOW : bool := false.

(** ** The server *)

Section Server.

Variable w : World.

(** *** Calls into the platform *)

(** [datetime.now()] *)
Definition now : M Z :=
  fun s => (Ok (datetime_now w (clock_calls s)), set_clock_calls (S (clock_calls s)) s).

(** [int(time.time())] *)
Definition time_now : M Z :=
  fun s => (Ok (time_time w (clock_calls s)), set_clock_calls (S (clock_calls s)) s).

(** One call into [RPi.GPIO]: does it raise? *)
Definition gpio_call : M (option string) :=
  fun s => (Ok (gpio_error w (gpio_calls s)), set_gpio_calls (S (gpio_calls s)) s).

(** One file operation: does it raise? *)
Definition io_call : M (option string) :=
  fun s => (Ok (io_error w (io_calls s)), set_io_calls (S (io_calls s)) s).

(** [GPIO.output(GPIO_PINS[name], level)]; the result is the exception. *)
Definition GPIO_output (name : gpio_name) (level : bool) : M (option string) :=
  e <- gpio_call ;;
  match e with
  | Some m => ret (Some m)
  | None =>
      modify (fun s =>
        set_pin_level
          (fun p => if Z.eqb p (GPIO_PINS w name) then level else pin_level s p) s) ;;
      ret None
  end.

(** [GPIO.setup(GPIO_PINS[name], mode)] *)
Definition GPIO_setup (name : gpio_name) : M (option string) := gpio_call.

(** [GPIO.input(GPIO_PINS[name])]: the exception or the level. *)
Definition GPIO_input (name : gpio_name) : M (string + bool) :=
  n <- gets gpio_calls ;;
  e <- gpio_call ;;
  match e with
  | Some m => ret (inl m)
  | None => ret (inr (gpio_input w n))
  end.

(** *** Event log *)

Definition log_event (event_type message : string)
    (user_name : option string) (user_id : option Z) : M unit :=
  t <- now ;;
  let log_entry :=
    {| log_timestamp := isoformat w t;
       log_event_type := event_type;
       log_message := message;
       log_user_name := user_name;
       log_user_id := user_id |} in
  (* with open(EVENTS_LOG_FILE, 'a') as f: f.write(...) *)
  e <- io_call ;;
  match e with
  | None =>
      modify (fun s =>
        set_events_log_file
          (Some (match events_log_file s with
                 | Some lines => lines
                 | None => []
                 end ++ [EntryLine log_entry])%list) s)
  | Some _ => ret tt   (* except Exception: logger.error *)
  end.

(** *** Saving *)

(** The loop shared by the three [save_*] methods:
    [for attempt in range(3): try: write; return  except: sleep or log]. *)
Fixpoint save_attempts (write : State -> State) (attempts : list nat) : M unit :=
  match attempts with
  | [] => ret tt
  | attempt :: rest =>
      e <- io_call ;;
      match e with
      | None => modify write          (* return  # Success *)
      | Some _ => save_attempts write rest
      end
  end.

Definition save_chat_ids : M unit :=
  save_attempts (fun s => set_chat_ids_file (Holds (chat_ids s)) s) (seq 0 3).

Definition save_scheduled_tasks : M unit :=
  save_attempts
    (fun s => set_scheduled_tasks_file (Holds (map GoodTask (scheduled_tasks s))) s)
    (seq 0 3).

Definition save_pending_notifications : M unit :=
  save_attempts
    (fun s => set_pending_notifications_file (Holds (pending_notifications s)) s)
    (seq 0 3).

(** *** Loading *)

(** The tasks that pass the validation loop. *)
Fixpoint validated_tasks (tasks : list stored_task) : list Task :=
  match tasks with
  | [] => []
  | GoodTask t :: r => t :: validated_tasks r
  | BadTask :: r => validated_tasks r
  end.

(** [shutil.copy2(name, backup_file)] inside its own [try]. *)
Definition backup_corrupted (name raw : string) : M unit :=
  t <- time_now ;;
  let backup_file := name ++ ".backup." ++ Py.str_of_Z t in
  e <- io_call ;;
  match e with
  | None => modify (fun s => set_backup_files ((backup_file, raw) :: backup_files s) s)
  | Some _ => ret tt
  end.

(** The loop shared by [load_chat_ids], [load_scheduled_tasks] and
    [load_pending_notifications].  [stored] reads the file called [name],
    [decode] is what the [try] block returns for the decoded data and
    [default] the empty value of the collection. *)
Fixpoint load_attempts {A B} (stored : State -> file A) (name : string)
    (decode : A -> B) (default : B) (attempts : list nat) : M B :=
  match attempts with
  | [] => ret default
  | attempt :: rest =>
      e <- io_call ;;   (* open(name, 'r') *)
      f <- gets stored ;;
      match e, f with
      | None, Holds data => ret (decode data)
      | None, Garbled raw =>
          (* except json.JSONDecodeError *)
          if (attempt <? 2)%nat
          then (backup_corrupted name raw ;;
                load_attempts stored name decode default rest)
          else ret default
      | _, _ =>
          (* except Exception *)
          if (attempt <? 2)%nat
          then load_attempts stored name decode default rest
          else ret default
      end
  end.

(** [if os.path.exists(name): for attempt in range(3): ...  return default] *)
Definition load_file {A B} (stored : State -> file A) (name : string)
    (decode : A -> B) (default : B) : M B :=
  f <- gets stored ;;
  match f with
  | Missing => ret default
  | _ => load_attempts stored name decode default (seq 0 3)
  end.

(** [chat_ids] is a set: [set(data)]. *)
Definition load_chat_ids : M (list Z) :=
  load_file chat_ids_file CHAT_IDS_FILE (nodup Z.eq_dec) [].

Definition load_scheduled_tasks : M (list Task) :=
  load_file scheduled_tasks_file SCHEDULED_TASKS_FILE validated_tasks [].

Definition load_pending_notifications : M (list Notification) :=
  load_file pending_notifications_file PENDING_NOTIFICATIONS_FILE (fun data => data) [].

(** *** Pending notifications *)

Definition add_pending_notification (notification_text : string)
    (timestamp : option string) : M unit :=
  timestamp <- match timestamp with
               | None => (t <- now ;; ret (isoformat w t))
               | Some ts => ret ts
               end ;;
  let unique_id := md5_id w (notification_text ++ timestamp) in
  let notification :=
    {| ntf_text := notification_text;
       ntf_timestamp := timestamp;
       ntf_id := unique_id |} in
  modify (fun s => set_pending_notifications (pending_notifications s ++ [notification])%list s) ;;
  modify (fun s =>
    if (100 <? length (pending_notifications s))%nat
    then set_pending_notifications (Py.last_n 100 (pending_notifications s)) s
    else s) ;;
  save_pending_notifications.

Definition get_pending_notifications : M (list Notification) :=
  l <- load_pending_notifications ;;
  modify (set_pending_notifications l) ;;
  ret l.

(** [add_chat_id]; [chat_ids] is a set. *)
Definition add_chat_id (chat_id : Z) : M unit :=
  ids <- gets chat_ids ;;
  if existsb (Z.eqb chat_id) ids then ret tt
  else (modify (fun s => set_chat_ids (chat_id :: chat_ids s) s) ;; save_chat_ids).

(** *** Actuation *)

Definition max_retries : nat := 3.

Fixpoint gpio_attempts (device_name : device) (action : status)
    (attempts : list nat) : M bool :=
  match attempts with
  | [] => ret false   (* "This should never be reached" *)
  | attempt :: rest =>
      e <- GPIO_output (relay device_name)
             (match action with on => LOW | off => HIGH end) ;;
      match e with
      | None => ret true
      | Some _ =>
          if (attempt <? max_retries - 1)%nat
          then gpio_attempts device_name action rest
          else ret false
      end
  end.

Definition control_gpio_device (device_name : device) (action : status) : M bool :=
  if negb (GPIO_AVAILABLE w) then ret true   (* simulation mode *)
  else gpio_attempts device_name action (seq 0 max_retries).

Definition get_device_user_name (device_name : device) : string :=
  match device_name with
  | light => "Light"
  | ac => "Air Conditioner"
  | washing_machine => "Washing Machine"
  end.

(** [self.home_devices[device_name]['status'] = action] *)
Definition set_status (device_name : device) (action : status) : M unit :=
  modify (fun s =>
    set_home_devices
      (fun d => if device_eqb d device_name then action else home_devices s d) s).

(** *** Scheduler *)

Definition _execute_scheduled_task (task : Task) : M unit :=
  let device_name := task_device task in
  let action := task_action task in
  let user_name :=
    match task_user_name task with Some u => u | None => "System" end in
  success <- control_gpio_device device_name action ;;
  if success then
    set_status device_name action ;;
    let device_display_name := get_device_user_name device_name in
    let action_display := match action with on => "ON" | off => "OFF" end in
    t <- now ;;
    let current_time := Datetime.strftime_HMS t in
    let notification_msg :=
      "[NOTIFICATION] 🔔 " ++ user_name ++ ": " ++ device_display_name
        ++ " turned " ++ action_display ++ " at " ++ current_time in
    (* notification_queue.put(notification_msg) *)
    modify (fun s =>
      set_notification_queue (notification_queue s ++ [notification_msg])%list s) ;;
    log_event "scheduled_task_executed" notification_msg (Some user_name) None
  else ret tt.   (* logger.error *)

(** [for task in self.scheduled_tasks: if due: execute; remember].
    The result is [tasks_to_remove]. *)
Fixpoint run_due (current_time : Z) (tasks : list Task) : M (list Task) :=
  match tasks with
  | [] => ret []
  | task :: rest =>
      if (scheduled_time task <=? current_time)%Z
      then (_execute_scheduled_task task ;;
            r <- run_due current_time rest ;;
            ret (task :: r))
      else run_due current_time rest
  end.

(** [l.remove(x)]: drops the first element equal to [x]. *)
Fixpoint remove_first (x : Task) (l : list Task) : list Task :=
  match l with
  | [] => []
  | y :: r => if Task_eqb y x then r else y :: remove_first x r
  end.

(** [for task in tasks_to_remove: if task in l: l.remove(task)] *)
Fixpoint remove_executed (tasks_to_remove l : list Task) : list Task :=
  match tasks_to_remove with
  | [] => l
  | task :: rest =>
      remove_executed rest
        (if existsb (fun y => Task_eqb y task) l then remove_first task l else l)
  end.

Definition check_security_system : M unit :=
  active <- gets security_system_active ;;
  if negb active || negb (GPIO_AVAILABLE w) then ret tt
  else
    ldr_value <- GPIO_input ldr_sensor ;;
    match ldr_value with
    | inr true =>
        e <- GPIO_output buzzer HIGH ;;
        match e with
        | Some _ => ret tt
        | None =>
            t <- now ;;
            let current_time := Datetime.strftime_HMS t in
            add_pending_notification
              ("[ALERT] 🚨 Suspicious activity detected by Home Security System at "
                 ++ current_time) None ;;
            (* time.sleep(5) *)
            GPIO_output buzzer LOW ;;
            ret tt
        end
    | _ => ret tt
    end.

(** One turn of the [while] loop of [_scheduler_loop]. *)
Definition _scheduler_loop_body : M unit :=
  current_time <- now ;;
  tasks <- gets scheduled_tasks ;;
  tasks_to_remove <- run_due current_time tasks ;;
  modify (fun s =>
    set_scheduled_tasks (remove_executed tasks_to_remove (scheduled_tasks s)) s) ;;
  match tasks_to_remove with
  | [] => ret tt
  | _ => save_scheduled_tasks
  end ;;
  active <- gets security_system_active ;;
  if active then check_security_system else ret tt.

(** [n] turns of the loop. *)
Fixpoint _scheduler_loop (n : nat) : M unit :=
  match n with
  | O => ret tt
  | S k => _scheduler_loop_body ;; _scheduler_loop k
  end.

(** *** Scheduling commands *)

Definition unsupported_format : string :=
  "⚠️ Unsupported schedule format. Try: 'Schedule light on in 30 seconds' or 'Schedule light on in 5 minutes' or 'Schedule ac off in 1 hour'".

(** The device the scheduling parser reads from the text. *)
Definition scheduled_device (text : string) : option device :=
  if Py.contains "light" text then Some light
  else if Py.contains "ac" text || Py.contains "air condition" text then Some ac
  else if Py.contains "washing machine" text then Some washing_machine
  else None.

(** The action the scheduling parser reads from the text. *)
Definition scheduled_action (text : string) : option status :=
  if Py.contains "turn on" text || Py.contains "switch on" text then Some on
  else if Py.contains "turn off" text || Py.contains "switch off" text then Some off
  else None.

(** [_process_scheduled_command] from "Determine device and action" on. *)
Definition schedule_at (text user_name : string) (scheduled_time : Z) : M string :=
  match scheduled_device text, scheduled_action text with
  | Some device_name, Some action =>
      let task :=
        {| task_device := device_name;
           task_action := action;
           scheduled_time := scheduled_time;
           task_user_name := Some user_name |} in
      modify (fun s => set_scheduled_tasks (scheduled_tasks s ++ [task])%list s) ;;
      save_scheduled_tasks ;;
      let device_display_name := get_device_user_name device_name in
      let action_display := match action with on => "ON" | off => "OFF" end in
      let time_display := Datetime.strftime_HMS scheduled_time in
      log_event "scheduled_task_created"
        ("Scheduled " ++ device_display_name ++ " to turn " ++ action_display
           ++ " at " ++ time_display) (Some user_name) None ;;
      ret ("⏰ Scheduled " ++ device_display_name ++ " to turn " ++ action_display
             ++ " at " ++ time_display ++ ".")
  | _, _ => ret "⚠️ Could not determine device or action for scheduling."
  end.

Definition _process_scheduled_command (text user_name : string) : M string :=
  match Re.search text with
  | Some (group1, unit) =>
      let amount := Py.int group1 in
      if Py.contains "second" unit then
        t <- now ;;
        scheduled_time <- checked (Datetime.add t (Datetime.timedelta_seconds amount)) ;;
        schedule_at text user_name scheduled_time
      else if Py.contains "minute" unit then
        t <- now ;;
        scheduled_time <- checked (Datetime.add t (Datetime.timedelta_minutes amount)) ;;
        schedule_at text user_name scheduled_time
      else if Py.contains "hour" unit then
        t <- now ;;
        scheduled_time <- checked (Datetime.add t (Datetime.timedelta_hours amount)) ;;
        schedule_at text user_name scheduled_time
      else ret "⚠️ Unsupported time unit. Please use seconds, minutes or hours."
  | None => ret unsupported_format
  end.

(** *** Security system *)

Definition simulation_warning : string :=
  "⚠️ Security system requires Raspberry Pi with GPIO support. Running in simulation mode.".

(** A run of GPIO calls inside one [try]: stops at the first that raises
    and returns its text. *)
Fixpoint gpio_seq (calls : list (M (option string))) : M (option string) :=
  match calls with
  | [] => ret None
  | c :: rest =>
      e <- c ;;
      match e with
      | Some m => ret (Some m)
      | None => gpio_seq rest
      end
  end.

Definition initialize_security_system (user_name : string) : M string :=
  if negb (GPIO_AVAILABLE w) then ret simulation_warning
  else
    e <- gpio_seq [GPIO_setup laser_module; GPIO_output laser_module HIGH;
                   GPIO_setup ldr_sensor;
                   GPIO_setup buzzer; GPIO_output buzzer LOW] ;;
    match e with
    | Some m => ret ("⚠️ Error initializing security system: " ++ m)
    | None =>
        modify (set_security_system_active true) ;;
        log_event "security_system_activated"
          ("Home security system activated by " ++ user_name) (Some user_name) None ;;
        t <- now ;;
        let current_time := Datetime.strftime_HMS t in
        add_pending_notification
          ("[NOTIFICATION] 🛡️ " ++ user_name
             ++ ": Home Security System INITIALIZED at " ++ current_time) None ;;
        ret "✅ Home Security System INITIALIZED. Laser module activated and monitoring for intruders."
    end.

Definition terminate_security_system (user_name : string) : M string :=
  if negb (GPIO_AVAILABLE w) then ret simulation_warning
  else
    e <- gpio_seq [GPIO_setup laser_module; GPIO_output laser_module LOW;
                   GPIO_setup buzzer; GPIO_output buzzer LOW] ;;
    match e with
    | Some m => ret ("⚠️ Error terminating security system: " ++ m)
    | None =>
        modify (set_security_system_active false) ;;
        log_event "security_system_deactivated"
          ("Home security system deactivated by " ++ user_name) (Some user_name) None ;;
        t <- now ;;
        let current_time := Datetime.strftime_HMS t in
        add_pending_notification
          ("[NOTIFICATION] 🛡️ " ++ user_name
             ++ ": Home Security System TERMINATED at " ++ current_time) None ;;
        ret "✅ Home Security System TERMINATED. All modules deactivated."
    end.

(** *** Command interpreter *)

(** The on/off keywords of a device command. *)
Definition says_on (text : string) : bool :=
  Py.contains "turn on" text || Py.contains "switch on" text.

Definition says_off (text : string) : bool :=
  Py.contains "turn off" text || Py.contains "switch off" text.

(** The air-conditioner test of [process_home_automation]. *)
Definition mentions_ac (text : string) : bool :=
  Py.contains "ac " text || Py.contains " air condition" text
  || Py.startswith "ac" text || String.eqb text "ac" || Py.mem "ac" (Py.split text).

Definition washing_machine_command (text user_name : string) : M string :=
  if says_on text then
    set_status washing_machine on ;;
    success <- control_gpio_device washing_machine on ;;
    if success then
      log_event "device_control" "Washing Machine turned ON" (Some user_name) None ;;
      ret "✅ Washing Machine turned ON."
    else ret "⚠️ Error turning on Washing Machine. Please try again."
  else if says_off text then
    set_status washing_machine off ;;
    success <- control_gpio_device washing_machine off ;;
    if success then
      log_event "device_control" "Washing Machine turned OFF" (Some user_name) None ;;
      ret "✅ Washing Machine turned OFF."
    else ret "⚠️ Error turning off Washing Machine. Please try again."
  else
    status <- gets (fun s => home_devices s washing_machine) ;;
    ret ("🧺 Washing Machine is currently " ++ status_str status ++ ".").

Definition ac_command (text user_name : string) : M string :=
  if says_on text then
    set_status ac on ;;
    success <- control_gpio_device ac on ;;
    if success then
      log_event "device_control" "Air Conditioner turned ON" (Some user_name) None ;;
      ret "✅ Air Conditioner turned ON."
    else ret "⚠️ Error turning on Air Conditioner. Please try again."
  else if says_off text then
    set_status ac off ;;
    success <- control_gpio_device ac off ;;
    if success then
      log_event "device_control" "Air Conditioner turned OFF" (Some user_name) None ;;
      ret "✅ Air Conditioner turned OFF."
    else ret "⚠️ Error turning off Air Conditioner. Please try again."
  else
    status <- gets (fun s => home_devices s ac) ;;
    ret ("❄️ Air Conditioner is currently " ++ status_str status ++ ".").

Definition light_command (text user_name : string) : M string :=
  if says_on text then
    set_status light on ;;
    success <- control_gpio_device light on ;;
    if success then
      log_event "device_control" "Light turned ON" (Some user_name) None ;;
      ret "✅ Light turned ON."
    else ret "⚠️ Error turning on light. Please try again."
  else if says_off text then
    set_status light off ;;
    success <- control_gpio_device light off ;;
    if success then
      log_event "device_control" "Light turned OFF" (Some user_name) None ;;
      ret "✅ Light turned OFF."
    else ret "⚠️ Error turning off light. Please try again."
  else
    status <- gets (fun s => home_devices s light) ;;
    ret ("💡 Light is currently " ++ status_str status ++ ".").

Definition security_command (text user_name : string) : M string :=
  if Py.contains "initialize" text || Py.contains "start" text
     || Py.contains "activate" text || Py.contains "arm" text then
    result <- initialize_security_system user_name ;;
    log_event "security_system" "Security system initialized" (Some user_name) None ;;
    ret result
  else if Py.contains "terminate" text || Py.contains "stop" text
          || Py.contains "deactivate" text || Py.contains "disarm" text then
    result <- terminate_security_system user_name ;;
    log_event "security_system" "Security system terminated" (Some user_name) None ;;
    ret result
  else
    active <- gets security_system_active ;;
    ret ("🛡️ Home Security System is currently "
           ++ (if active then "ACTIVE" else "INACTIVE") ++ ".").

Definition process_home_automation (text user_name : string) : M string :=
  let text := Py.lower text in
  if Py.contains "schedule" text || Py.contains "timer" text then
    _process_scheduled_command text user_name
  else if Py.contains "washing machine" text then
    washing_machine_command text user_name
  else if mentions_ac text then
    ac_command text user_name
  else if Py.contains "light" text then
    light_command text user_name
  else if Py.contains "security" text || Py.contains "laser" text
          || Py.contains "intruder" text then
    security_command text user_name
  else ret "".   (* Not a home automation command *)

(** *** Log details *)

(** [for line in lines: try: json.loads ... except: continue] *)
Fixpoint parse_lines (lines : list log_line) : list EventLogEntry :=
  match lines with
  | [] => []
  | EntryLine e :: r => e :: parse_lines r
  | BadLine :: r => parse_lines r
  end.

(** One step of a stable sort, newest first: [x] goes in front of the
    first entry whose timestamp is not greater than its own. *)
Fixpoint insert_desc (x : EventLogEntry) (l : list EventLogEntry) : list EventLogEntry :=
  match l with
  | [] => [x]
  | y :: r =>
      if String.ltb (log_timestamp x) (log_timestamp y)
      then y :: insert_desc x r
      else x :: l
  end.

(** [log_entries.sort(key=lambda x: x['timestamp'], reverse=True)] *)
Definition sort_desc (l : list EventLogEntry) : list EventLogEntry :=
  fold_right insert_desc [] l.

(** The five lines of entry number [i] (counted from 0). *)
Definition format_entry (i : nat) (entry : EventLogEntry) : list string :=
  let formatted_time :=
    match iso_display w (log_timestamp entry) with
    | Some d => d
    | None => log_timestamp entry
    end in
  [ "[" ++ Py.fmt_2d (Z.of_nat (i + 1)) ++ "] " ++ formatted_time;
    "     Type: " ++ log_event_type entry;
    "     User: "
      ++ match log_user_name entry with Some u => u | None => "None" end
      ++ " (ID: "
      ++ match log_user_id entry with Some n => Py.str_of_Z n | None => "None" end
      ++ ")";
    "     Message: " ++ log_message entry;
    "" ].

(** [for i, entry in enumerate(entries)], counting from [i]. *)
Fixpoint format_entries (i : nat) (entries : list EventLogEntry) : list string :=
  match entries with
  | [] => []
  | entry :: r => (format_entry i entry ++ format_entries (S i) r)%list
  end.

Definition no_log_entries : string := "No log entries found.".

(** [get_log_details] once the file is read. *)
Definition render_log (log_entries : list EventLogEntry) : string :=
  let log_entries := sort_desc log_entries in
  match log_entries with
  | [] => no_log_entries
  | _ =>
      let head :=
        [ Py.repeat_str "=" 60;
          "DETAILED SERVER LOGS";
          Py.repeat_str "=" 60;
          "Total Events: " ++ Py.str_of_Z (Z.of_nat (length log_entries));
          "" ] in
      Py.join nl
        (head ++ format_entries 0 (firstn 20 log_entries) ++ [Py.repeat_str "=" 60])%list
  end.

Definition get_log_details : M string :=
  f <- gets events_log_file ;;
  match f with
  | None => ret (render_log [])
  | Some lines =>
      e <- io_call ;;   (* open(EVENTS_LOG_FILE, 'r') and readlines *)
      match e with
      | Some m => ret ("Error retrieving log details: " ++ m)
      | None => ret (render_log (parse_lines lines))
      end
  end.

(** *** Replies *)

(** The device the notification code reads from the text; the same chain
    stands in [generate_response] and in [send_message]. *)
Definition notified_device (message_lower : string) : option device :=
  if Py.contains "light" message_lower then Some light
  else if Py.contains "ac" message_lower || Py.contains "air condition" message_lower
       then Some ac
  else if Py.contains "washing machine" message_lower then Some washing_machine
  else None.

Definition any_in (keywords : list string) (text : string) : bool :=
  existsb (fun keyword => Py.contains keyword text) keywords.

Definition status_report (user_name : string) : M string :=
  s <- gets (fun s => s) ;;
  let line device :=
    "• " ++ get_device_user_name device ++ ": "
      ++ status_title (home_devices s device) ++ nl in
  ret ("🏠 " ++ user_name ++ ", Current Device Status:" ++ nl
         ++ line light ++ line ac ++ line washing_machine
         ++ "• Home Security System: "
         ++ (if security_system_active s then "ACTIVE" else "INACTIVE") ++ nl).

Definition generate_response (message_text : string) (user_id : Z)
    (user_name : string) : M string :=
  home_automation_response <- process_home_automation message_text user_name ;;
  match home_automation_response with
  | String _ _ =>
      (if any_in ["turn on"; "turn off"; "switch on"; "switch off"] (Py.lower message_text)
       then
         match notified_device (Py.lower message_text) with
         | Some device_name =>
             let device_display_name := get_device_user_name device_name in
             let action :=
               if any_in ["turn on"; "switch on"] (Py.lower message_text)
               then "ON" else "OFF" in
             t <- now ;;
             let current_time := Datetime.strftime_HMS t in
             add_pending_notification
               ("[NOTIFICATION] 🔔 " ++ user_name ++ ": " ++ device_display_name
                  ++ " turned " ++ action ++ " at " ++ current_time) None
         | None => ret tt
         end
       else ret tt) ;;
      ret home_automation_response
  | EmptyString =>
      let message_lower := Py.lower message_text in
      if Py.contains "log details" message_lower then get_log_details
      else if any_in ["hello"; "hi"; "hey"; "greetings"] message_lower then
        ret ("Hello " ++ user_name ++ "! Welcome to ToggleTalk Server!")
      else if any_in ["help"; "what can you do"; "commands"] message_lower then
        ret ("Hello " ++ user_name ++ "! I can help you control your home appliances and security system! Try commands like 'Turn on the light', 'Turn off the AC', 'Initialize security system', or 'Terminate security system'.")
      else if any_in ["status"; "state"; "how is"] message_lower then
        status_report user_name
      else
        ret ("Sorry " ++ user_name ++ ", I didn't understand that command. Try saying 'Turn on the light' or 'Turn off the AC'.")
  end.

(** [message[:n]] *)
Definition take (n : nat) (s : string) : string := substring 0 n s.

(** [send_message] once the request is validated: the reply it puts in the
    JSON answer. *)
Definition send_message (message user_name : string) (user_id : Z) : M string :=
  let message :=
    if (1000 <? String.length message)%nat then take 1000 message ++ "..."
    else message in
  add_chat_id user_id ;;
  response <- try_except (generate_response message user_id user_name)
                (fun _ => ret ("Sorry " ++ user_name
                                 ++ ", I encountered an error processing your request.")) ;;
  let message_lower := Py.lower message in
  (if any_in ["turn on"; "turn off"; "switch on"; "switch off"; "schedule"] message_lower
   then
     match notified_device message_lower with
     | Some device_name =>
         if Py.contains "schedule" message_lower then ret tt
         else
           t <- now ;;
           let current_time := Datetime.strftime_HMS t in
           let notification_msg :=
             "[NOTIFICATION] 🔔 " ++ user_name ++ ": " ++ message
               ++ " at " ++ current_time in
           add_pending_notification notification_msg None ;;
           modify (fun s =>
             set_notification_queue (notification_queue s ++ [notification_msg])%list s)
     | None => ret tt
     end
   else if any_in ["initialize"; "start"; "activate"; "arm";
                   "terminate"; "stop"; "deactivate"; "disarm"] message_lower
   then
     t <- now ;;
     let current_time := Datetime.strftime_HMS t in
     let notification_msg :=
       "[NOTIFICATION] 🔔 " ++ user_name ++ ": " ++ message ++ " at " ++ current_time in
     add_pending_notification notification_msg None ;;
     modify (fun s =>
       set_notification_queue (notification_queue s ++ [notification_msg])%list s)
   else ret tt) ;;
  ret response.

End Server.

(** ** Concrete platforms and states *)

(** The pin numbers [GPIO_PINS] has when no environment variable is set. *)
Definition default_pins (name : gpio_name) : Z :=
  match name with
  | pin_light => 23
  | pin_ac => 24
  | pin_washing_machine => 25
  | laser_module => 27
  | ldr_sensor => 22
  | buzzer => 5
  end.

(** 2024-01-01T12:00:00, in microseconds. *)
Definition noon : Z := 63839707200000000.

(** No GPIO library: the simulation mode.  Files never fail; every reading
    of the clock is one second after the one before.  The renderings of
    timestamps and the hash are stand-ins. *)
Definition simulation : World :=
  {| GPIO_AVAILABLE := false;
     GPIO_PINS := default_pins;
     gpio_error := fun _ => None;
     gpio_input := fun _ => false;
     io_error := fun _ => None;
     datetime_now := fun n => (noon + Z.of_nat n * 1000000)%Z;
     time_time := fun n => (1704110400 + Z.of_nat n)%Z;
     isoformat := Py.str_of_Z;
     iso_display := fun _ => None;
     md5_id := fun s => Z.of_nat (String.length s) |}.

(** A Raspberry Pi on which every call into the GPIO library raises. *)
Definition broken_gpio : World :=
  {| GPIO_AVAILABLE := true;
     GPIO_PINS := default_pins;
     gpio_error := fun _ => Some "GPIO failure";
     gpio_input := fun _ => false;
     io_error := fun _ => None;
     datetime_now := datetime_now simulation;
     time_time := time_time simulation;
     isoformat := Py.str_of_Z;
     iso_display := fun _ => None;
     md5_id := md5_id simulation |}.

(** The state [__init__] builds when no file exists yet. *)
Definition initial_state : State :=
  {| home_devices := fun _ => off;
     security_system_active := false;
     chat_ids := [];
     scheduled_tasks := [];
     pending_notifications := [];
     notification_queue := [];
     pin_level := fun _ => HIGH;
     events_log_file := None;
     chat_ids_file := Missing;
     scheduled_tasks_file := Missing;
     pending_notifications_file := Missing;
     backup_files := [];
     gpio_calls := 0;
     io_calls := 0;
     clock_calls := 0 |}.

(** ** Reasoning about methods *)

(** [m] returns: it never raises. *)
Definition returns {A} (m : M A) : Prop :=
  forall s, exists a s', m s = (Ok a, s').

(** [m] leaves the component [f] of the state alone. *)
Definition frames {A X} (f : State -> X) (m : M A) : Prop :=
  forall s, f (snd (m s)) = f s.

(** The reader [f] does not see what the setter [set] writes. *)
Definition ignores {X V} (f : State -> X) (set : V -> State -> State) : Prop :=
  forall v s, f (set v s) = f s.

(** ** Vocabulary of the properties *)

(** The device [process_home_automation] settles on for a text without
    scheduling keywords: its chain of tests, washing machine first. *)
Definition interpreter_device (text : string) : option device :=
  if Py.contains "washing machine" text then Some washing_machine
  else if mentions_ac text then Some ac
  else if Py.contains "light" text then Some light
  else None.

(** The action the three device branches read from the text. *)
Definition interpreter_action (text : string) : option status :=
  if says_on text then Some on
  else if says_off text then Some off
  else None.


(** [control_gpio_device] reports success from the state [s]: there is no
    GPIO library, or one of the next three GPIO calls does not raise. *)
Definition actuation_succeeds (w : World) (s : State) : bool :=
  negb (GPIO_AVAILABLE w)
  || existsb (fun k => match gpio_error w (gpio_calls s + k) with
                       | None => true
                       | Some _ => false
                       end) (seq 0 3).

(** A task is due at [current_time]. *)
Definition due (current_time : Z) (task : Task) : bool :=
  (scheduled_time task <=? current_time)%Z.





(** The branch of [process_home_automation] that serves a device. *)
Definition device_command (w : World) (d : device) : string -> string -> M string :=
  match d with
  | washing_machine => washing_machine_command w
  | ac => ac_command w
  | light => light_command w
  end.

(** The replies and the log message of the six on/off branches. *)
Definition success_reply (d : device) (a : status) : string :=
  match d, a with
  | washing_machine, on => "✅ Washing Machine turned ON."
  | washing_machine, off => "✅ Washing Machine turned OFF."
  | ac, on => "✅ Air Conditioner turned ON."
  | ac, off => "✅ Air Conditioner turned OFF."
  | light, on => "✅ Light turned ON."
  | light, off => "✅ Light turned OFF."
  end.

Definition error_reply (d : device) (a : status) : string :=
  match d, a with
  | washing_machine, on => "⚠️ Error turning on Washing Machine. Please try again."
  | washing_machine, off => "⚠️ Error turning off Washing Machine. Please try again."
  | ac, on => "⚠️ Error turning on Air Conditioner. Please try again."
  | ac, off => "⚠️ Error turning off Air Conditioner. Please try again."
  | light, on => "⚠️ Error turning on light. Please try again."
  | light, off => "⚠️ Error turning off light. Please try again."
  end.

Definition control_message (d : device) (a : status) : string :=
  match d, a with
  | washing_machine, on => "Washing Machine turned ON"
  | washing_machine, off => "Washing Machine turned OFF"
  | ac, on => "Air Conditioner turned ON"
  | ac, off => "Air Conditioner turned OFF"
  | light, on => "Light turned ON"
  | light, off => "Light turned OFF"
  end.

(** The texts of the pending notifications. *)
Definition pending_texts (s : State) : list string :=
  map ntf_text (pending_notifications s).

(** The notification block of [generate_response]. *)
Definition announce (w : World) (message_text user_name : string) : M unit :=
  if any_in ["turn on"; "turn off"; "switch on"; "switch off"] (Py.lower message_text)
  then
    match notified_device (Py.lower message_text) with
    | Some device_name =>
        let device_display_name := get_device_user_name device_name in
        let action :=
          if any_in ["turn on"; "switch on"] (Py.lower message_text)
          then "ON" else "OFF" in
        t <- now w ;;
        let current_time := Datetime.strftime_HMS t in
        add_pending_notification w
          ("[NOTIFICATION] 🔔 " ++ user_name ++ ": " ++ device_display_name
             ++ " turned " ++ action ++ " at " ++ current_time) None
    | None => ret tt
    end
  else ret tt.




(** One of the three attempts of a [save_*] method, the first of which is
    file operation number [n], goes through. *)
Definition storage_accepts (w : World) (n : nat) : bool :=
  existsb (fun k => match io_error w (n + k) with
                    | None => true
                    | Some _ => false
                    end) (seq 0 3).

(** The lines of the event log; none when the file does not exist. *)
Definition log_lines (s : State) : list log_line :=
  match events_log_file s with
  | Some lines => lines
  | None => []
  end.

(** ["ON"] or ["OFF"], as the replies and notifications print an action. *)
Definition action_display (a : status) : string :=
  match a with on => "ON" | off => "OFF" end.





(** The due tasks, run one after the other. *)
Fixpoint execute_all (w : World) (tasks : list Task) : M unit :=
  match tasks with
  | [] => ret tt
  | task :: rest => _execute_scheduled_task w task ;; execute_all w rest
  end.

(** Whom a scheduled notification names. *)
Definition actor (task : Task) : string :=
  match task_user_name task with Some u => u | None => "System" end.

(** The text [_execute_scheduled_task] builds at the time [t]. *)
Definition scheduled_notification (task : Task) (t : Z) : string :=
  "[NOTIFICATION] 🔔 " ++ actor task ++ ": " ++ get_device_user_name (task_device task)
    ++ " turned " ++ action_display (task_action task)
    ++ " at " ++ Datetime.strftime_HMS t.

(** Alice's task "light on", due at noon, and a state that holds it. *)
Definition light_on_at_noon : Task :=
  {| task_device := light; task_action := on; scheduled_time := noon;
     task_user_name := Some "Alice" |}.

Definition due_state : State := set_scheduled_tasks [light_on_at_noon] initial_state.

(** The end of a tick: the security monitor, when the system is armed. *)
Definition security_tick (w : World) : M unit :=
  active <- gets security_system_active ;;
  if active then check_security_system w else ret tt.

(** A full list of pending notifications: the one inserted first carries
    the latest timestamp of all. *)
Definition first_in : Notification :=
  {| ntf_text := "first in"; ntf_timestamp := "2024-12-31T23:59:59"; ntf_id := 1 |}.

Definition filler : Notification :=
  {| ntf_text := "filler"; ntf_timestamp := "2024-06-01T00:00:00"; ntf_id := 2 |}.

Definition full_state : State :=
  set_pending_notifications (first_in :: repeat filler 99) initial_state.

(** ** More of the server *)

Section Server_rest.

Variable w : World.

Definition clear_pending_notifications : M unit :=
  modify (set_pending_notifications []) ;;
  save_pending_notifications w.

(** [get_notifications]: the fields [notifications] and [count] of the
    answer. *)
Definition get_notifications : M (list Notification * nat) :=
  notifications <- get_pending_notifications w ;;
  ret (notifications, length notifications).


End Server_rest.

(** [add_console_line], on the module global [console_lines]; the redraw
    of the terminal is left out. *)
Definition add_console_line (line : string) (console_lines : list string)
    : list string :=
  let fresh :=
    match console_lines with
    | [] => true
    | _ => negb (String.eqb (last console_lines "") line)
    end in
  if negb (String.eqb line "") && fresh then
    let console_lines := (console_lines ++ [line])%list in
    if (50 <? length console_lines)%nat
    then tl console_lines   (* console_lines.pop(0) *)
    else console_lines
  else console_lines.

(** ** Vocabulary of the further properties *)

(** [m] takes every state to one that is related to it by [R]. *)
Definition keeps {A} (R : State -> State -> Prop) (m : M A) : Prop :=
  forall s, R s (snd (m s)).

(** The event log of [s'] is the one of [s] with records added at the end. *)
Definition log_extends (s s' : State) : Prop :=
  exists added, log_lines s' = (log_lines s ++ map EntryLine added)%list.

(** The cap on the pending notifications, once there, stays. *)
Definition cap_stays (s s' : State) : Prop :=
  length (pending_notifications s) <= 100 ->
  length (pending_notifications s') <= 100.


(** The first [k] of the GPIO calls that follow [s] go through. *)
Definition gpio_works (w : World) (s : State) (k : nat) : Prop :=
  forall j, j < k -> gpio_error w (gpio_calls s + j) = None.

(** The write to the relay pin that [control_gpio_device] means. *)
Definition relay_level (a : status) : bool :=
  match a with on => LOW | off => HIGH end.


(** ** More platforms and states *)

(** A Raspberry Pi on which nothing fails; the sensor reads high. *)
Definition raspberry : World :=
  {| GPIO_AVAILABLE := true;
     GPIO_PINS := default_pins;
     gpio_error := fun _ => None;
     gpio_input := fun _ => HIGH;
     io_error := fun _ => None;
     datetime_now := datetime_now simulation;
     time_time := time_time simulation;
     isoformat := Py.str_of_Z;
     iso_display := fun _ => None;
     md5_id := md5_id simulation |}.

(** A Raspberry Pi whose first GPIO call raises. *)
Definition flaky_gpio : World :=
  {| GPIO_AVAILABLE := true;
     GPIO_PINS := default_pins;
     gpio_error := fun n => match n with 0 => Some "GPIO failure" | _ => None end;
     gpio_input := fun _ => LOW;
     io_error := fun _ => None;
     datetime_now := datetime_now simulation;
     time_time := time_time simulation;
     isoformat := Py.str_of_Z;
     iso_display := fun _ => None;
     md5_id := md5_id simulation |}.

(** The simulation mode next to files that cannot be opened: the first
    three file operations raise. *)
Definition locked_disk : World :=
  {| GPIO_AVAILABLE := false;
     GPIO_PINS := default_pins;
     gpio_error := fun _ => None;
     gpio_input := fun _ => LOW;
     io_error := fun n => if (n <? 3)%nat then Some "Permission denied" else None;
     datetime_now := datetime_now simulation;
     time_time := time_time simulation;
     isoformat := Py.str_of_Z;
     iso_display := fun _ => None;
     md5_id := md5_id simulation |}.

(** The component [f] of the state is the same in [s'] as in [s]. *)
Definition same {X} (f : State -> X) (s s' : State) : Prop := f s' = f s.

(** ** The parts of [send_message] *)





(** No line of the console stands twice in a row. *)
Fixpoint no_repeat (l : list string) : Prop :=
  match l with
  | x :: (y :: _) as r => x <> y /\ no_repeat r
  | _ => True
  end.

(** The initial state with the security system armed. *)
Definition armed_state : State := set_security_system_active true initial_state.
(** * Properties *)

(** ** The string primitives on examples *)

Example lower_ex : Py.lower "Turn ON the AC" = "turn on the ac".
Proof. reflexivity. Qed.

Example contains_machine : Py.contains "ac" "washing machine" = true.
Proof. reflexivity. Qed.

Example split_ex : Py.split "  turn  on ac " = ["turn"; "on"; "ac"].
Proof. reflexivity. Qed.

Example search_ex :
  Re.search "schedule light on in 30 seconds" = Some ("30", "second").
Proof. reflexivity. Qed.

Example search_none : Re.search "schedule light on at 3:30 pm" = None.
Proof. reflexivity. Qed.
Section Combinators.

Context {A B X : Type} (f : State -> X).

Lemma returns_ret (a : A) : returns (ret a).
Proof. intro s. now exists a, s. Qed.

Lemma returns_gets (g : State -> A) : returns (gets g).
Proof. intro s. now exists (g s), s. Qed.

Lemma returns_modify (g : State -> State) : returns (modify g).
Proof. intro s. now exists tt, (g s). Qed.

Lemma returns_bind (m : M A) (k : A -> M B) :
  returns m -> (forall a, returns (k a)) -> returns (bind m k).
Proof.
  intros Hm Hk s. destruct (Hm s) as (a & s' & E).
  unfold bind. rewrite E. apply Hk.
Qed.

Lemma frames_ret (a : A) : frames f (ret a).
Proof. intro s. reflexivity. Qed.

Lemma frames_raise (e : exn) : frames f (@raise A e).
Proof. intro s. reflexivity. Qed.

Lemma frames_gets (g : State -> A) : frames f (gets g).
Proof. intro s. reflexivity. Qed.

Lemma frames_modify (g : State -> State) :
  (forall s, f (g s) = f s) -> frames f (modify g).
Proof. intros H s. apply H. Qed.

Lemma frames_bind (m : M A) (k : A -> M B) :
  frames f m -> (forall a, frames f (k a)) -> frames f (bind m k).
Proof.
  intros Hm Hk s. unfold bind.
  destruct (m s) as [[a|e] s'] eqn:E.
  - rewrite Hk. specialize (Hm s). now rewrite E in Hm.
  - specialize (Hm s). now rewrite E in Hm.
Qed.

End Combinators.

(** What [bind] does after a step that returned. *)
Lemma bind_ok {A B} (m : M A) (k : A -> M B) s a s' :
  m s = (Ok a, s') -> bind m k s = k a s'.
Proof. intro E. unfold bind. now rewrite E. Qed.

Ltac returns_step :=
  first
    [ apply returns_ret | apply returns_gets | apply returns_modify
    | apply returns_bind; [ | intro ]
    | match goal with
      | |- returns (match ?x with _ => _ end) => destruct x
      end ].

Ltac frames_step :=
  first
    [ apply frames_ret | apply frames_raise | apply frames_gets
    | apply frames_modify; intro; reflexivity
    | apply frames_bind; [ | intro ]
    | match goal with
      | |- frames _ (match ?x with _ => _ end) => destruct x
      end ].

Create HintDb server discriminated.

Section Platform_calls.

Variable w : World.

Lemma returns_now : returns (now w).
Proof. intro s. eexists _, _. reflexivity. Qed.

Lemma returns_time_now : returns (time_now w).
Proof. intro s. eexists _, _. reflexivity. Qed.

Lemma returns_gpio_call : returns (gpio_call w).
Proof. intro s. eexists _, _. reflexivity. Qed.

Lemma returns_io_call : returns (io_call w).
Proof. intro s. eexists _, _. reflexivity. Qed.

End Platform_calls.

#[export] Hint Resolve returns_now returns_time_now returns_gpio_call returns_io_call : server.

Ltac returns_auto := repeat (returns_step || solve [auto with server]).

Section Returns.

Variable w : World.

Lemma returns_GPIO_output name level : returns (GPIO_output w name level).
Proof. unfold GPIO_output. returns_auto. Qed.

Lemma returns_GPIO_input name : returns (GPIO_input w name).
Proof. unfold GPIO_input. returns_auto. Qed.

Lemma returns_log_event t m u i : returns (log_event w t m u i).
Proof. unfold log_event. returns_auto. Qed.

Lemma returns_save_attempts write attempts : returns (save_attempts w write attempts).
Proof. induction attempts; simpl; returns_auto. Qed.

Lemma returns_gpio_attempts d a attempts : returns (gpio_attempts w d a attempts).
Proof.
  induction attempts; simpl; returns_auto; auto using returns_GPIO_output.
Qed.

End Returns.

(** ** Symbolic execution *)

(** Reduce projections of updated states, and nothing else. *)
Ltac st_simpl :=
  cbn [fst snd home_devices security_system_active chat_ids scheduled_tasks
       pending_notifications notification_queue pin_level events_log_file
       chat_ids_file scheduled_tasks_file pending_notifications_file backup_files
       gpio_calls io_calls clock_calls
       set_home_devices set_security_system_active set_chat_ids set_scheduled_tasks
       set_pending_notifications set_notification_queue set_pin_level
       set_events_log_file set_chat_ids_file set_scheduled_tasks_file
       set_pending_notifications_file set_backup_files set_gpio_calls set_io_calls
       set_clock_calls] in *.

(** Unfold the monad and the platform calls. *)
Ltac run :=
  unfold bind, ret, gets, modify, raise, now, time_now, io_call, gpio_call in *;
  st_simpl.

Ltac ign := solve [intros ? ?; reflexivity | intros ?; reflexivity].

Lemma returns_unit (m : M unit) s : returns m -> fst (m s) = Ok tt.
Proof. intro H. destruct (H s) as ([] & s' & E). now rewrite E. Qed.

Lemma last_n_length {A} n (l : list A) : length (Py.last_n n l) <= n.
Proof. unfold Py.last_n. rewrite length_skipn. lia. Qed.

Lemma last_n_all {A} n (l : list A) : length l <= n -> Py.last_n n l = l.
Proof.
  intro H. unfold Py.last_n. replace (length l - n) with 0 by lia. reflexivity.
Qed.

Lemma last_n_suffix {A} n (l : list A) :
  exists evicted, l = (evicted ++ Py.last_n n l)%list.
Proof.
  exists (firstn (length l - n) l). unfold Py.last_n.
  symmetry. apply firstn_skipn.
Qed.

Section Frames.

Variable w : World.
Context {X : Type} (f : State -> X).

Lemma frames_now : ignores f set_clock_calls -> frames f (now w).
Proof. intros H s. apply H. Qed.

Lemma frames_io_call : ignores f set_io_calls -> frames f (io_call w).
Proof. intros H s. apply H. Qed.

Lemma frames_gpio_call : ignores f set_gpio_calls -> frames f (gpio_call w).
Proof. intros H s. apply H. Qed.

Lemma frames_save_attempts write attempts :
  ignores f set_io_calls -> (forall s, f (write s) = f s) ->
  frames f (save_attempts w write attempts).
Proof.
  intros Hio Hw. induction attempts as [|a r IH]; simpl.
  - apply frames_ret.
  - apply frames_bind; [now apply frames_io_call|].
    intros [e|]; [exact IH | now apply frames_modify].
Qed.

Lemma frames_log_event t m u i :
  ignores f set_clock_calls -> ignores f set_io_calls ->
  ignores f set_events_log_file ->
  frames f (log_event w t m u i).
Proof.
  intros H1 H2 H3. unfold log_event.
  apply frames_bind; [now apply frames_now|]. intro.
  apply frames_bind; [now apply frames_io_call|].
  intros [e|]; [apply frames_ret | apply frames_modify; intro; apply H3].
Qed.

Lemma frames_GPIO_output name level :
  ignores f set_gpio_calls -> ignores f set_pin_level ->
  frames f (GPIO_output w name level).
Proof.
  intros H1 H2. unfold GPIO_output.
  apply frames_bind; [now apply frames_gpio_call|].
  intros [e|]; [apply frames_ret|].
  apply frames_bind; [|intro; apply frames_ret].
  apply frames_modify. intro. apply H2.
Qed.

Lemma frames_gpio_attempts d a attempts :
  ignores f set_gpio_calls -> ignores f set_pin_level ->
  frames f (gpio_attempts w d a attempts).
Proof.
  intros H1 H2. induction attempts as [|n r IH]; simpl.
  - apply frames_ret.
  - apply frames_bind; [now apply frames_GPIO_output|].
    intros [e|]; [|apply frames_ret].
    destruct (n <? _)%nat; [exact IH | apply frames_ret].
Qed.

Lemma frames_control_gpio_device d a :
  ignores f set_gpio_calls -> ignores f set_pin_level ->
  frames f (control_gpio_device w d a).
Proof.
  intros H1 H2. unfold control_gpio_device.
  destruct (negb (GPIO_AVAILABLE w)); [apply frames_ret|].
  now apply frames_gpio_attempts.
Qed.

Lemma frames_add_pending_notification text ts :
  ignores f set_clock_calls -> ignores f set_io_calls ->
  ignores f set_pending_notifications ->
  ignores f set_pending_notifications_file ->
  frames f (add_pending_notification w text ts).
Proof.
  intros H1 H2 H3 H4. unfold add_pending_notification.
  apply frames_bind.
  { destruct ts; [apply frames_ret|].
    apply frames_bind; [now apply frames_now | intro; apply frames_ret]. }
  intro. apply frames_bind; [apply frames_modify; intro; apply H3|]. intro.
  apply frames_bind.
  { apply frames_modify. intro s. destruct (100 <? _)%nat; [apply H3 | reflexivity]. }
  intro. apply frames_save_attempts; [exact H2 | intro; apply H4].
Qed.

End Frames.

Section More_returns.

Variable w : World.

Lemma returns_control_gpio_device d a : returns (control_gpio_device w d a).
Proof.
  unfold control_gpio_device.
  destruct (negb (GPIO_AVAILABLE w)); [apply returns_ret|].
  apply returns_gpio_attempts.
Qed.

Lemma returns_add_pending_notification text ts :
  returns (add_pending_notification w text ts).
Proof.
  unfold add_pending_notification, save_pending_notifications.
  returns_auto; apply returns_save_attempts.
Qed.

End More_returns.

#[export] Hint Resolve returns_GPIO_output returns_GPIO_input returns_log_event
  returns_save_attempts returns_gpio_attempts returns_control_gpio_device
  returns_add_pending_notification : server.

(** ** Pending notifications are capped *)

(** The list after the call: the old one, the new entry, the cut. *)
Lemma add_pending_notification_appends w notification_text timestamp s :
  exists n,
    ntf_text n = notification_text /\
    pending_notifications (snd (add_pending_notification w notification_text timestamp s))
      = Py.last_n 100 (pending_notifications s ++ [n]).
Proof.
  unfold add_pending_notification.
  assert (E : exists stamp s1,
             match timestamp with
             | Some ts0 => ret ts0
             | None => t <- now w;; ret (isoformat w t)
             end s = (Ok stamp, s1)
             /\ pending_notifications s1 = pending_notifications s).
  { destruct timestamp; eexists _, _; split; reflexivity. }
  destruct E as (stamp & s1 & E & F).
  rewrite (bind_ok _ _ _ _ _ E).
  erewrite bind_ok by reflexivity.
  erewrite bind_ok by reflexivity.
  cbv beta zeta. unfold save_pending_notifications.
  exists {| ntf_text := notification_text; ntf_timestamp := stamp;
            ntf_id := md5_id w (notification_text ++ stamp) |}.
  split; [reflexivity|].
  rewrite (frames_save_attempts w pending_notifications) by ign.
  rewrite <- F. destruct (100 <? _)%nat eqn:L; [reflexivity|].
  apply Nat.ltb_ge in L. st_simpl. now rewrite last_n_all.
Qed.

(** C5.  After [add_pending_notification] the list holds at most 100
    entries: it is the old list with the new notification appended, cut
    down to its last 100 elements.  What goes is a prefix of the list in
    insertion order, whatever the timestamps say; the call returns. *)
Theorem C5_pending_notifications_capped w notification_text timestamp s :
  let r := add_pending_notification w notification_text timestamp s in
  fst r = Ok tt /\
  length (pending_notifications (snd r)) <= 100 /\
  exists n evicted,
    ntf_text n = notification_text /\
    pending_notifications (snd r)
      = Py.last_n 100 (pending_notifications s ++ [n]) /\
    (pending_notifications s ++ [n] = evicted ++ pending_notifications (snd r))%list /\
    length (pending_notifications (snd r))
      = Nat.min 100 (S (length (pending_notifications s))).
Proof.
  intro r. subst r.
  destruct (add_pending_notification_appends w notification_text timestamp s)
    as (n & N & P).
  split; [apply returns_unit, returns_add_pending_notification|].
  split; [rewrite P; apply last_n_length|].
  destruct (last_n_suffix 100 (pending_notifications s ++ [n])) as [evicted Hev].
  exists n, evicted. rewrite P.
  repeat split; [exact N | exact Hev |].
  unfold Py.last_n. rewrite length_skipn, length_app. cbn [length]. lia.
Qed.

(** Eviction goes by position: a notification stamped earlier than every
    other one comes in last and stays, and the one inserted first goes,
    late as its timestamp is. *)
Example eviction_ignores_timestamps :
  let r := add_pending_notification simulation "last in"
             (Some "2024-01-01T00:00:00") full_state in
  length (pending_notifications full_state) = 100 /\
  pending_notifications (snd r)
    = (repeat filler 99
         ++ [{| ntf_text := "last in"; ntf_timestamp := "2024-01-01T00:00:00";
                ntf_id := 26 |}])%list.
Proof. vm_compute. split; reflexivity. Qed.

(** ** Loading a corrupted file *)

Section Loading.

Variable w : World.
Context {A B : Type} (stored : State -> file A) (name : string)
        (decode : A -> B) (default : B).

Lemma load_attempts_cons attempt rest :
  load_attempts w stored name decode default (attempt :: rest) =
  (e <- io_call w ;;
   f <- gets stored ;;
   match e, f with
   | None, Holds data => ret (decode data)
   | None, Garbled raw =>
       if (attempt <? 2)%nat
       then (backup_corrupted w name raw ;;
             load_attempts w stored name decode default rest)
       else ret default
   | _, _ =>
       if (attempt <? 2)%nat
       then load_attempts w stored name decode default rest
       else ret default
   end).
Proof. reflexivity. Qed.

Hypothesis stored_io : ignores stored set_io_calls.
Hypothesis stored_clock : ignores stored set_clock_calls.
Hypothesis stored_backup : ignores stored set_backup_files.





End Loading.



(** ** Actuation *)

Section Actuation.

Variable w : World.

(** [control_gpio_device] answers [actuation_succeeds]. *)
Lemma control_gpio_device_result d a s :
  fst (control_gpio_device w d a s) = Ok (actuation_succeeds w s).
Proof.
  unfold control_gpio_device, actuation_succeeds.
  destruct (GPIO_AVAILABLE w); [|reflexivity].
  unfold max_retries. cbn [negb orb seq existsb gpio_attempts].
  unfold max_retries. cbn [Nat.sub Nat.ltb Nat.leb].
  rewrite Nat.add_0_r.
  replace (gpio_calls s + 1) with (S (gpio_calls s)) by lia.
  replace (gpio_calls s + 2) with (S (S (gpio_calls s))) by lia.
  unfold GPIO_output. run.
  destruct (gpio_error w (gpio_calls s)); [st_simpl|reflexivity].
  destruct (gpio_error w (S (gpio_calls s))); [st_simpl|reflexivity].
  destruct (gpio_error w (S (S (gpio_calls s)))); reflexivity.
Qed.

(** The six on/off branches of [process_home_automation], seen as one:
    the status is written, then the relay is driven, and only the reply
    and the log entry depend on how that went. *)
Lemma device_command_on_off d a text user_name :
  interpreter_action text = Some a ->
  device_command w d text user_name =
  (set_status d a ;;
   success <- control_gpio_device w d a ;;
   if success
   then (log_event w "device_control" (control_message d a) (Some user_name) None ;;
         ret (success_reply d a))
   else ret (error_reply d a)).
Proof.
  unfold interpreter_action. intro H.
  destruct d; cbn [device_command];
    unfold washing_machine_command, ac_command, light_command;
    destruct (says_on text); [inversion H; subst; reflexivity | |
                              inversion H; subst; reflexivity | |
                              inversion H; subst; reflexivity | ];
    (destruct (says_off text); [inversion H; subst; reflexivity | discriminate]).
Qed.

(** What an on/off branch leaves behind. *)
Lemma device_command_effect d a text user_name s :
  interpreter_action text = Some a ->
  let r := device_command w d text user_name s in
  fst r = Ok (if actuation_succeeds w s then success_reply d a else error_reply d a) /\
  home_devices (snd r) d = a /\
  (forall d', d' <> d -> home_devices (snd r) d' = home_devices s d') /\
  pending_notifications (snd r) = pending_notifications s /\
  notification_queue (snd r) = notification_queue s /\
  scheduled_tasks (snd r) = scheduled_tasks s.
Proof.
  intros H r. subst r. rewrite (device_command_on_off d a text user_name H).
  unfold set_status. erewrite bind_ok by reflexivity.
  set (s1 := set_home_devices _ s).
  pose proof (control_gpio_device_result d a s1) as R.
  assert (K : forall X (f : State -> X),
             ignores f set_gpio_calls -> ignores f set_pin_level ->
             ignores f set_clock_calls -> ignores f set_io_calls ->
             ignores f set_events_log_file ->
             f (snd ((success <- control_gpio_device w d a ;;
                      if success
                      then (log_event w "device_control" (control_message d a)
                              (Some user_name) None ;;
                            ret (success_reply d a))
                      else ret (error_reply d a)) s1)) = f s1).
  { intros X f H1 H2 H3 H4 H5.
    apply (frames_bind f); [now apply frames_control_gpio_device|].
    intros [|]; [|apply frames_ret].
    apply frames_bind; [now apply frames_log_event | intro; apply frames_ret]. }
  split.
  - destruct (control_gpio_device w d a s1) as [res s2] eqn:E.
    unfold bind at 1. rewrite E. cbn [fst] in R. subst res.
    change (actuation_succeeds w s1) with (actuation_succeeds w s).
    destruct (actuation_succeeds w s); [|reflexivity].
    destruct (returns_log_event w "device_control" (control_message d a)
                (Some user_name) None s2) as ([] & s3 & E3).
    unfold bind. now rewrite E3.
  - split; [|split; [|split; [|split]]].
    + rewrite (K _ (fun s => home_devices s d)) by ign.
      subst s1. st_simpl. now destruct d.
    + intros d' Hd. rewrite (K _ (fun s => home_devices s d')) by ign.
      subst s1. st_simpl. destruct d, d'; try reflexivity; now elim Hd.
    + now rewrite (K _ pending_notifications) by ign.
    + now rewrite (K _ notification_queue) by ign.
    + now rewrite (K _ scheduled_tasks) by ign.
Qed.

End Actuation.

(** C1.  On a board whose GPIO calls all raise, "turn on the light" is
    answered with the error reply after three attempts, and the light, off
    before the call, is recorded as on. *)
Theorem C1_failed_actuation_changes_status :
  let r := generate_response broken_gpio "turn on the light" 1 "Alice" initial_state in
  home_devices initial_state light = off /\
  actuation_succeeds broken_gpio initial_state = false /\
  fst r = Ok "⚠️ Error turning on light. Please try again." /\
  gpio_calls (snd r) = 3 /\
  home_devices (snd r) light = on.
Proof. vm_compute. repeat split. Qed.

(** The same for every on/off command and every failing platform: the
    status recorded after the error reply is the one that was asked for. *)
Lemma failed_actuation_records_request w d a text user_name s :
  interpreter_action text = Some a ->
  actuation_succeeds w s = false ->
  let r := device_command w d text user_name s in
  fst r = Ok (error_reply d a) /\ home_devices (snd r) d = a.
Proof.
  intros H F.
  destruct (device_command_effect w d a text user_name s H) as (R & S & _).
  rewrite F in R. now split.
Qed.

(** ** Notifications of interactive commands *)

(** C2.  Three runs of the interactive path.  In simulation mode "turn on
    the washing machine" switches the washing machine and announces the air
    conditioner.  On a board whose GPIO calls all raise, "turn on the light"
    gets the error reply and a notification all the same.  Through
    [send_message] one successful command leaves two pending
    notifications. *)
Theorem C2_notification_of_device_commands :
  (let r := generate_response simulation "turn on the washing machine" 1 "Alice"
              initial_state in
   fst r = Ok "✅ Washing Machine turned ON." /\
   home_devices (snd r) washing_machine = on /\
   home_devices (snd r) ac = off /\
   pending_texts (snd r)
     = ["[NOTIFICATION] 🔔 Alice: Air Conditioner turned ON at 12:00:01"]) /\
  (let r := generate_response broken_gpio "turn on the light" 1 "Alice" initial_state in
   fst r = Ok "⚠️ Error turning on light. Please try again." /\
   pending_texts (snd r) = ["[NOTIFICATION] 🔔 Alice: Light turned ON at 12:00:00"]) /\
  (let r := send_message simulation "turn on the light" "Alice" 1 initial_state in
   fst r = Ok "✅ Light turned ON." /\
   pending_texts (snd r)
     = ["[NOTIFICATION] 🔔 Alice: Light turned ON at 12:00:01";
        "[NOTIFICATION] 🔔 Alice: turn on the light at 12:00:03"]).
Proof. vm_compute. repeat split. Qed.

(** ** Substrings *)

Lemma prefix_app p s : prefix p s = true <-> exists r, s = p ++ r.
Proof.
  revert s. induction p as [|c p IH]; intro s.
  - simpl. split; [intros _; now exists s | now destruct s].
  - destruct s as [|c' s]; simpl.
    + split; [discriminate | intros [r H]; discriminate].
    + destruct (ascii_dec c c') as [->|N]; split.
      * intro H. apply IH in H. destruct H as [r ->]. now exists r.
      * intros [r H]. inversion H. apply IH. now exists r.
      * discriminate.
      * intros [r H]. inversion H. congruence.
Qed.

Lemma contains_app needle hay :
  Py.contains needle hay = true <-> exists a b, hay = a ++ needle ++ b.
Proof.
  induction hay as [|c hay IH]; cbn [Py.contains].
  - destruct (prefix needle "") eqn:P.
    + apply prefix_app in P. destruct P as [r P]. split; [|reflexivity].
      intros _. now exists "", r.
    + split; [discriminate|]. intros ([|] & b & H); [|discriminate].
      simpl in H. assert (prefix needle "" = true) by (apply prefix_app; now exists b).
      congruence.
  - destruct (prefix needle (String c hay)) eqn:P.
    + apply prefix_app in P. destruct P as [r P]. split; [|reflexivity].
      intros _. now exists "", r.
    + rewrite IH. split.
      * intros (a & b & ->). now exists (String c a), b.
      * intros ([|c' a] & b & H).
        -- simpl in H. assert (prefix needle (String c hay) = true)
             by (apply prefix_app; now exists b). congruence.
        -- inversion H. now exists a, b.
Qed.

Lemma append_assoc_string (a b c : string) : (a ++ b) ++ c = a ++ b ++ c.
Proof. induction a; simpl; congruence. Qed.

(** A text that contains [big] contains each substring of [big]. *)
Lemma contains_sub small big pre post hay :
  big = pre ++ small ++ post ->
  Py.contains big hay = true -> Py.contains small hay = true.
Proof.
  intros -> H. apply contains_app in H. destruct H as (a & b & ->).
  apply contains_app. exists (a ++ pre), (post ++ b).
  now rewrite !append_assoc_string.
Qed.

(** "ac" is in "washing machine". *)
Lemma washing_machine_has_ac text :
  Py.contains "washing machine" text = true -> Py.contains "ac" text = true.
Proof. apply (contains_sub "ac" "washing machine" "washing m" "hine"). reflexivity. Qed.

(** ** The scheduling parser and the interpreter read devices differently *)

(** C3.  For "schedule washing machine turn on in 5 minutes" the
    scheduling parser reads the air conditioner where the chain of the
    interpreter reads the washing machine, and the task that is stored
    switches the air conditioner. *)
Theorem C3_scheduling_reads_another_device :
  let text := "schedule washing machine turn on in 5 minutes" in
  let r := process_home_automation simulation text "Alice" initial_state in
  interpreter_device text = Some washing_machine /\
  scheduled_device text = Some ac /\
  fst r = Ok "⏰ Scheduled Air Conditioner to turn ON at 12:05:00." /\
  map task_device (scheduled_tasks (snd r)) = [ac].
Proof. vm_compute. repeat split. Qed.

(** The actions are read alike. *)
Lemma scheduled_action_agrees text : scheduled_action text = interpreter_action text.
Proof. reflexivity. Qed.

(** The washing-machine branch of the scheduling parser is dead: its test
    comes after the test for "ac". *)
Lemma washing_machine_never_scheduled text :
  scheduled_device text <> Some washing_machine.
Proof.
  unfold scheduled_device.
  destruct (Py.contains "light" text); [discriminate|].
  destruct (Py.contains "washing machine" text) eqn:W.
  - rewrite (washing_machine_has_ac text W). discriminate.
  - destruct (_ || _); discriminate.
Qed.

(** Without a device or without an action nothing is stored. *)
Lemma schedule_at_undetermined w text user_name t s :
  scheduled_device text = None \/ scheduled_action text = None ->
  schedule_at w text user_name t s
    = (Ok "⚠️ Could not determine device or action for scheduling.", s).
Proof.
  unfold schedule_at.
  intros [H|H]; rewrite H; [|destruct (scheduled_device text)]; reflexivity.
Qed.

(** ** Matching order of the interpreter *)



Section Matching.

Variable w : World.



Lemma returns_announce message_text user_name :
  returns (announce w message_text user_name).
Proof. unfold announce. returns_auto. Qed.


(** A reply of the automation layer goes out unchanged. *)
Lemma generate_response_automation message_text user_id user_name s c r s1 :
  process_home_automation w message_text user_name s = (Ok (String c r), s1) ->
  generate_response w message_text user_id user_name s
    = (Ok (String c r), snd (announce w message_text user_name s1)).
Proof.
  intro E. unfold generate_response. rewrite (bind_ok _ _ _ _ _ E).
  fold (announce w message_text user_name).
  destruct (returns_announce message_text user_name s1) as ([] & s2 & E2).
  unfold bind. now rewrite E2.
Qed.


End Matching.

(** *** Which device gets announced *)

Lemma split_aux_substring s :
  forall cur x, In x (Py.split_aux cur s) -> exists a b, cur ++ s = a ++ x ++ b.
Proof.
  induction s as [|c r IH]; intros cur x; cbn [Py.split_aux].
  - destruct cur; [intros []|]. intros [<-|[]]. now exists "", "".
  - destruct (Py.isspace c).
    + destruct cur as [|c0 cur].
      * intro H. destruct (IH "" x H) as (a & b & E). cbn [append] in E.
        exists (String c a), b. cbn [append]. now rewrite E.
      * intros [<-|H].
        -- now exists "", (String c r).
        -- destruct (IH "" x H) as (a & b & E). cbn [append] in E.
           exists (String c0 cur ++ String c a), b.
           rewrite append_assoc_string. cbn [append]. now rewrite E.
    + intro H. destruct (IH _ x H) as (a & b & E). exists a, b.
      rewrite <- E, append_assoc_string. reflexivity.
Qed.

(** A token of [text.split()] is a substring of [text]. *)
Lemma token_contains x text :
  Py.mem x (Py.split text) = true -> Py.contains x text = true.
Proof.
  unfold Py.mem, Py.split. intro H.
  apply existsb_exists in H. destruct H as (y & Hy & E).
  apply String.eqb_eq in E. subst y.
  destruct (split_aux_substring text "" x Hy) as (a & b & K).
  apply contains_app. now exists a, b.
Qed.

(** Whatever passes the air-conditioner test of the interpreter passes the
    one of the notification code. *)
Lemma mentions_ac_has_ac text :
  mentions_ac text = true ->
  Py.contains "ac" text || Py.contains "air condition" text = true.
Proof.
  unfold mentions_ac. intro H.
  repeat (apply orb_prop in H; destruct H as [H|H]).
  - now rewrite (contains_sub "ac" "ac " "" " " text eq_refl H).
  - rewrite (contains_sub "air condition" " air condition" " " "" text eq_refl H).
    apply orb_true_r.
  - unfold Py.startswith in H. apply prefix_app in H. destruct H as [r ->].
    assert (C : Py.contains "ac" ("ac" ++ r) = true)
      by (apply contains_app; now exists "", r).
    now rewrite C.
  - apply String.eqb_eq in H. now subst.
  - now rewrite (token_contains _ _ H).
Qed.

(** The washing-machine branch of the notification code is dead as well. *)
Lemma washing_machine_never_announced text :
  notified_device text <> Some washing_machine.
Proof.
  unfold notified_device.
  destruct (Py.contains "light" text); [discriminate|].
  destruct (Py.contains "washing machine" text) eqn:W.
  - rewrite (washing_machine_has_ac text W). discriminate.
  - destruct (_ || _); discriminate.
Qed.

Lemma interpreter_device_announced text d :
  interpreter_device text = Some d ->
  exists d', notified_device text = Some d' /\ d' <> washing_machine.
Proof.
  unfold interpreter_device. intro H.
  assert (K : notified_device text <> None).
  { unfold notified_device.
    destruct (Py.contains "light" text) eqn:L; [discriminate|].
    destruct (Py.contains "washing machine" text) eqn:W.
    - rewrite (washing_machine_has_ac text W). discriminate.
    - destruct (mentions_ac text) eqn:A; [|discriminate].
      rewrite (mentions_ac_has_ac text A). discriminate. }
  destruct (notified_device text) as [d'|] eqn:N; [|congruence].
  exists d'. split; [reflexivity|].
  intros ->. now apply (washing_machine_never_announced text).
Qed.

(** Every on/off command for a device is announced once, whether the relay
    could be driven or not, and never as the washing machine. *)
Lemma device_commands_announced_regardless w text user_id user_name s d a :
  let t := Py.lower text in
  Py.contains "schedule" t || Py.contains "timer" t = false ->
  interpreter_device t = Some d ->
  interpreter_action t = Some a ->
  exists d' time n,
    notified_device t = Some d' /\ d' <> washing_machine /\
    ntf_text n = "[NOTIFICATION] 🔔 " ++ user_name ++ ": " ++ get_device_user_name d'
                   ++ " turned " ++ action_display a ++ " at "
                   ++ Datetime.strftime_HMS time /\
    pending_notifications (snd (generate_response w text user_id user_name s))
      = Py.last_n 100 (pending_notifications s ++ [n]).
Proof.
  intros t S D A.
  destruct (interpreter_device_announced t d D) as (d' & N & W).
  assert (P : process_home_automation w text user_name = device_command w d t user_name).
  { unfold process_home_automation. fold t. rewrite S.
    unfold interpreter_device in D.
    destruct (Py.contains "washing machine" t);
      [|destruct (mentions_ac t); [|destruct (Py.contains "light" t)]];
      inversion D; reflexivity. }
  destruct (device_command_effect w d a t user_name s A) as (R & _ & _ & Q & _).
  rewrite <- P in R, Q.
  destruct (process_home_automation w text user_name s) as [res s1] eqn:E.
  cbn [fst snd] in R, Q. subst res.
  assert (K : exists c r, (if actuation_succeeds w s then success_reply d a
                           else error_reply d a) = String c r).
  { destruct (actuation_succeeds w s), d, a; eexists _, _; reflexivity. }
  destruct K as (c & r & K). rewrite K in E.
  rewrite (generate_response_automation w _ user_id _ _ _ _ _ E). cbn [snd].
  unfold announce. fold t. rewrite N.
  assert (Kw : any_in ["turn on"; "turn off"; "switch on"; "switch off"] t = true
               /\ (if any_in ["turn on"; "switch on"] t then "ON" else "OFF")
                  = action_display a).
  { unfold interpreter_action, says_on, says_off in A. unfold any_in. cbn [existsb].
    destruct (Py.contains "turn on" t), (Py.contains "switch on" t),
      (Py.contains "turn off" t), (Py.contains "switch off" t);
      inversion A; split; reflexivity. }
  destruct Kw as [K1 K2]. rewrite K1, K2.
  erewrite bind_ok by reflexivity.
  match goal with
  | |- context [add_pending_notification w ?m None ?st] =>
      destruct (add_pending_notification_appends w m None st) as (n & T & L)
  end.
  exists d', (datetime_now w (clock_calls s1)), n.
  repeat split; try assumption. rewrite L. st_simpl. now rewrite Q.
Qed.



(** ** Security commands without a GPIO library *)

Lemma log_event_run w event_type message user_name user_id s :
  log_event w event_type message user_name user_id s =
  (Ok tt,
   let s1 := set_io_calls (S (io_calls s)) (set_clock_calls (S (clock_calls s)) s) in
   match io_error w (io_calls s) with
   | None =>
       set_events_log_file
         (Some (log_lines s
                  ++ [EntryLine {| log_timestamp := isoformat w (datetime_now w (clock_calls s));
                                   log_event_type := event_type;
                                   log_message := message;
                                   log_user_name := user_name;
                                   log_user_id := user_id |}])%list) s1
   | Some _ => s1
   end).
Proof.
  unfold log_event, log_lines. run.
  destruct (io_error w (io_calls s)); reflexivity.
Qed.




(** ** Scheduling commands *)

Section Saving.

Variable w : World.

(** When one of the three attempts goes through, the write is made. *)
Lemma save_attempts_commits write s :
  storage_accepts w (io_calls s) = true ->
  exists k, save_attempts w write (seq 0 3) s = (Ok tt, write (set_io_calls k s)).
Proof.
  unfold storage_accepts. cbn [seq existsb save_attempts].
  rewrite Nat.add_0_r.
  replace (io_calls s + 1) with (S (io_calls s)) by lia.
  replace (io_calls s + 2) with (S (S (io_calls s))) by lia.
  run. intro H.
  destruct (io_error w (io_calls s)); [st_simpl|eexists; reflexivity].
  destruct (io_error w (S (io_calls s))); [st_simpl|eexists; reflexivity].
  destruct (io_error w (S (S (io_calls s)))); [discriminate|eexists; reflexivity].
Qed.

Lemma save_scheduled_tasks_persists s :
  storage_accepts w (io_calls s) = true ->
  scheduled_tasks_file (snd (save_scheduled_tasks w s))
    = Holds (map GoodTask (scheduled_tasks s)).
Proof.
  intro H. unfold save_scheduled_tasks.
  destruct (save_attempts_commits
              (fun s => set_scheduled_tasks_file
                          (Holds (map GoodTask (scheduled_tasks s))) s) s H)
    as [k ->].
  reflexivity.
Qed.

Lemma frames_save_scheduled_tasks {X} (f : State -> X) :
  ignores f set_io_calls -> ignores f set_scheduled_tasks_file ->
  frames f (save_scheduled_tasks w).
Proof.
  intros H1 H2. apply frames_save_attempts; [exact H1 | intro; apply H2].
Qed.

Lemma returns_save_scheduled_tasks : returns (save_scheduled_tasks w).
Proof. apply returns_save_attempts. Qed.

End Saving.

Lemma first_unit_in alts s u : Re.first_unit alts s = Some u -> In u alts.
Proof.
  induction alts as [|a r IH]; simpl; [discriminate|].
  destruct (prefix a s); [intro H; inversion H; now left | intro H; right; auto].
Qed.

Lemma match_here_unit s g u : Re.match_here s = Some (g, u) -> In u Re.units.
Proof.
  unfold Re.match_here.
  destruct (prefix "in" s); [|discriminate].
  destruct (Py.span Py.isspace (Py.drop 2 s)) as [ws1 r1].
  destruct ws1; [discriminate|].
  destruct (Py.span Py.isdigit r1) as [ds r2].
  destruct ds; [discriminate|].
  destruct (Py.span Py.isspace r2) as [ws2 r3].
  destruct ws2; [discriminate|].
  destruct (Re.first_unit Re.units r3) eqn:F; [|discriminate].
  intro H. inversion H; subst. eapply first_unit_in; eassumption.
Qed.

(** Group 2 of a match is one of the six alternatives. *)
Lemma search_unit s g u : Re.search s = Some (g, u) -> In u Re.units.
Proof.
  induction s as [|c s IH]; cbn [Re.search].
  - destruct (Re.match_here "") as [[g' u']|] eqn:M; [|discriminate].
    intro H. inversion H; subst. eapply match_here_unit; eassumption.
  - destruct (Re.match_here (String c s)) as [[g' u']|] eqn:M; [|exact IH].
    intro H. inversion H; subst. eapply match_here_unit; eassumption.
Qed.

(** Each alternative names exactly one of the three units. *)
Lemma unit_cases u :
  In u Re.units ->
  Py.contains "second" u = true \/
  (Py.contains "second" u = false /\ Py.contains "minute" u = true) \/
  (Py.contains "second" u = false /\ Py.contains "minute" u = false
   /\ Py.contains "hour" u = true).
Proof.
  intro H. repeat (destruct H as [<-|H]; [vm_compute; tauto|]). destruct H.
Qed.

(** A scheduling command without a device or without an action creates
    no task, whatever the text and the platform. *)
Lemma scheduling_without_device_or_action w text user_name s :
  scheduled_device text = None \/ scheduled_action text = None ->
  let r := _process_scheduled_command w text user_name s in
  scheduled_tasks (snd r) = scheduled_tasks s /\
  scheduled_tasks_file (snd r) = scheduled_tasks_file s /\
  (fst r = Ok unsupported_format \/
   fst r = Ok "⚠️ Could not determine device or action for scheduling." \/
   fst r = Raise OverflowError).
Proof.
  intros U r. subst r. unfold _process_scheduled_command.
  destruct (Re.search text) as [[group1 unit]|] eqn:Hm; [|cbn; auto].
  pose proof (unit_cases unit (search_unit _ _ _ Hm)) as C.
  assert (G : forall delta,
             let r := (t <- now w;;
                       scheduled_time <- checked (Datetime.add t delta);;
                       schedule_at w text user_name scheduled_time) s in
             scheduled_tasks (snd r) = scheduled_tasks s /\
             scheduled_tasks_file (snd r) = scheduled_tasks_file s /\
             (fst r = Ok unsupported_format \/
              fst r = Ok "⚠️ Could not determine device or action for scheduling." \/
              fst r = Raise OverflowError)).
  { intros delta r. subst r. erewrite bind_ok by reflexivity.
    destruct (Datetime.add _ delta) as [due_at|]; cbn [checked].
    - erewrite bind_ok by reflexivity.
      rewrite (schedule_at_undetermined w text user_name due_at _ U). cbn. auto.
    - cbn. auto. }
  destruct C as [U1 | [[U1 U2] | [U1 [U2 U3]]]].
  - rewrite U1. apply G.
  - rewrite U1, U2. apply G.
  - rewrite U1, U2, U3. apply G.
Qed.

Section Scheduling.

Variable w : World.


End Scheduling.




(** ** Log details *)













(** ** The scheduler *)

Section Scheduler.

Variable w : World.

Lemma returns_execute_scheduled_task task : returns (_execute_scheduled_task w task).
Proof. unfold _execute_scheduled_task, set_status. returns_auto. Qed.

Lemma frames_execute_scheduled_task {X} (f : State -> X) task :
  ignores f set_gpio_calls -> ignores f set_pin_level ->
  ignores f set_home_devices -> ignores f set_clock_calls ->
  ignores f set_notification_queue -> ignores f set_io_calls ->
  ignores f set_events_log_file ->
  frames f (_execute_scheduled_task w task).
Proof.
  intros H1 H2 H3 H4 H5 H6 H7. unfold _execute_scheduled_task.
  apply frames_bind; [now apply frames_control_gpio_device|].
  intros [|]; [|apply frames_ret].
  apply frames_bind; [apply frames_modify; intro; apply H3|]. intro.
  apply frames_bind; [now apply frames_now|]. intro.
  apply frames_bind; [apply frames_modify; intro; apply H5|]. intro.
  now apply frames_log_event.
Qed.

Lemma returns_execute_all tasks : returns (execute_all w tasks).
Proof.
  induction tasks; simpl; returns_auto;
    auto using returns_execute_scheduled_task.
Qed.

Lemma frames_execute_all {X} (f : State -> X) tasks :
  ignores f set_gpio_calls -> ignores f set_pin_level ->
  ignores f set_home_devices -> ignores f set_clock_calls ->
  ignores f set_notification_queue -> ignores f set_io_calls ->
  ignores f set_events_log_file ->
  frames f (execute_all w tasks).
Proof.
  intros. induction tasks; simpl; [apply frames_ret|].
  apply frames_bind; [now apply frames_execute_scheduled_task | now intro].
Qed.

(** The first loop of the tick runs the due tasks in list order and
    remembers them. *)
Lemma run_due_spec current_time tasks s :
  run_due w current_time tasks s
    = (Ok (filter (due current_time) tasks),
       snd (execute_all w (filter (due current_time) tasks) s)).
Proof.
  revert s. induction tasks as [|task rest IH]; intro s; [reflexivity|].
  cbn [run_due filter].
  change (scheduled_time task <=? current_time)%Z with (due current_time task).
  destruct (due current_time task); [|apply IH].
  cbn [execute_all].
  destruct (returns_execute_scheduled_task task s) as ([] & s1 & E).
  rewrite !(bind_ok _ _ _ _ _ E). unfold bind. rewrite IH. reflexivity.
Qed.

Lemma returns_check_security_system : returns (check_security_system w).
Proof. unfold check_security_system. returns_auto. Qed.

Lemma frames_check_security_system {X} (f : State -> X) :
  ignores f set_gpio_calls -> ignores f set_pin_level ->
  ignores f set_clock_calls -> ignores f set_io_calls ->
  ignores f set_pending_notifications ->
  ignores f set_pending_notifications_file ->
  frames f (check_security_system w).
Proof.
  intros H1 H2 H3 H4 H5 H6. unfold check_security_system.
  apply frames_bind; [apply frames_gets|]. intro active.
  destruct (_ || _); [apply frames_ret|].
  apply frames_bind.
  { unfold GPIO_input. apply frames_bind; [apply frames_gets|]. intro.
    apply frames_bind; [now apply frames_gpio_call|].
    intros [|]; apply frames_ret. }
  intros [m|[|]]; try apply frames_ret.
  apply frames_bind; [now apply frames_GPIO_output|].
  intros [m|]; [apply frames_ret|].
  apply frames_bind; [now apply frames_now|]. intro.
  apply frames_bind; [now apply frames_add_pending_notification|]. intro.
  apply frames_bind; [now apply frames_GPIO_output | intro; apply frames_ret].
Qed.

(** What one scheduled task leaves behind. *)
Lemma execute_scheduled_task_effect task s :
  let r := _execute_scheduled_task w task s in
  fst r = Ok tt /\
  pending_notifications (snd r) = pending_notifications s /\
  if actuation_succeeds w s
  then home_devices (snd r) (task_device task) = task_action task /\
       (forall d, d <> task_device task ->
                  home_devices (snd r) d = home_devices s d) /\
       notification_queue (snd r)
         = (notification_queue s
              ++ [scheduled_notification task (datetime_now w (clock_calls s))])%list
  else (forall d, home_devices (snd r) d = home_devices s d) /\
       notification_queue (snd r) = notification_queue s /\
       events_log_file (snd r) = events_log_file s.
Proof.
  intro r. subst r.
  split; [apply returns_unit, returns_execute_scheduled_task|].
  split; [now rewrite (frames_execute_scheduled_task pending_notifications) by ign|].
  unfold _execute_scheduled_task.
  pose proof (control_gpio_device_result w (task_device task) (task_action task) s) as R.
  pose proof (frames_control_gpio_device w home_devices
                (task_device task) (task_action task)) as F1.
  pose proof (frames_control_gpio_device w notification_queue
                (task_device task) (task_action task)) as F2.
  pose proof (frames_control_gpio_device w events_log_file
                (task_device task) (task_action task)) as F3.
  pose proof (frames_control_gpio_device w clock_calls
                (task_device task) (task_action task)) as F4.
  specialize (F1 ltac:(ign) ltac:(ign) s). specialize (F2 ltac:(ign) ltac:(ign) s).
  specialize (F3 ltac:(ign) ltac:(ign) s). specialize (F4 ltac:(ign) ltac:(ign) s).
  destruct (control_gpio_device w (task_device task) (task_action task) s)
    as [res s1] eqn:E.
  cbn [fst snd] in *. subst res. rewrite !(bind_ok _ _ _ _ _ E).
  destruct (actuation_succeeds w s).
  - unfold set_status.
    repeat (erewrite bind_ok by reflexivity).
    rewrite !log_event_run. cbn [snd].
    unfold scheduled_notification, actor, action_display.
    destruct (io_error w _); st_simpl; rewrite F1, F2, F4;
      (split; [now destruct (task_device task)|]);
      (split; [|reflexivity]);
      intros d Hd; destruct d, (task_device task); try reflexivity; now elim Hd.
  - cbn [snd ret]. rewrite F1, F2, F3. auto.
Qed.

End Scheduler.

Lemma Task_eqb_refl t : Task_eqb t t = true.
Proof.
  unfold Task_eqb. destruct t as [d a t u]. cbn.
  rewrite Z.eqb_refl. destruct d, a, u as [u|]; cbn; try reflexivity;
    apply String.eqb_refl.
Qed.

Lemma Task_eqb_due ct x y : Task_eqb x y = true -> due ct x = due ct y.
Proof.
  unfold Task_eqb, due. intro H.
  repeat (apply andb_prop in H; destruct H as [H ?]).
  match goal with K : Z.eqb _ _ = true |- _ => apply Z.eqb_eq in K; now rewrite K end.
Qed.

(** Due tasks never remove a task that is not due. *)
Lemma remove_executed_skips ct h dues l :
  due ct h = false -> Forall (fun t => due ct t = true) dues ->
  remove_executed dues (h :: l) = h :: remove_executed dues l.
Proof.
  intros Hh Hd. revert l. induction Hd as [|task rest Ht _ IH]; intro l; [reflexivity|].
  cbn [remove_executed existsb remove_first].
  assert (N : Task_eqb h task = false).
  { destruct (Task_eqb h task) eqn:E; [|reflexivity].
    apply (Task_eqb_due ct) in E. congruence. }
  rewrite N. cbn [orb].
  destruct (existsb _ l); apply IH.
Qed.

(** The second loop of the tick removes exactly the due tasks. *)
Lemma remove_executed_due ct l :
  remove_executed (filter (due ct) l) l = filter (fun t => negb (due ct t)) l.
Proof.
  induction l as [|h l IH]; [reflexivity|].
  cbn [filter]. destruct (due ct h) eqn:D; cbn [negb].
  - cbn [remove_executed existsb remove_first]. rewrite Task_eqb_refl. cbn [orb].
    exact IH.
  - rewrite (remove_executed_skips ct); [now rewrite IH | exact D |].
    apply Forall_forall. intros t Ht. now apply filter_In in Ht.
Qed.

(** C6, amended.  A tick reads the clock once and runs every task whose due
    time is not later, in list order; afterwards the pending list holds
    exactly the tasks that were not due, so that a task is run at most once,
    whether its relay could be driven or not.  A task whose relay is driven
    sets the device to the action and puts the notification, with the user of
    the task as actor, on the delivery queue; a task whose relay cannot be
    driven changes no device, queues nothing and logs nothing.  Neither
    touches the pending notifications.  After the removals the task file is
    saved, once, when a task was due, and not at all otherwise: it is left
    alone in the one case and holds the remaining tasks in the other, which
    shows when the storage does not fail. *)
Theorem C6_scheduler_tick w s :
  let current_time := datetime_now w (clock_calls s) in
  let tasks := scheduled_tasks s in
  let dues := filter (due current_time) tasks in
  let r := _scheduler_loop_body w s in
  fst r = Ok tt /\
  scheduled_tasks (snd r) = filter (fun t => negb (due current_time t)) tasks /\
  Forall (fun t => due current_time t = false) (scheduled_tasks (snd r)) /\
  r = ((match dues with
        | [] => ret tt
        | _ => save_scheduled_tasks w
        end ;; security_tick w)
         (set_scheduled_tasks (filter (fun t => negb (due current_time t)) tasks)
            (snd (execute_all w dues (set_clock_calls (S (clock_calls s)) s))))) /\
  (forall task s0,
     let e := _execute_scheduled_task w task s0 in
     fst e = Ok tt /\
     pending_notifications (snd e) = pending_notifications s0 /\
     if actuation_succeeds w s0
     then home_devices (snd e) (task_device task) = task_action task /\
          (forall d, d <> task_device task ->
                     home_devices (snd e) d = home_devices s0 d) /\
          notification_queue (snd e)
            = (notification_queue s0
                 ++ [scheduled_notification task (datetime_now w (clock_calls s0))])%list
     else (forall d, home_devices (snd e) d = home_devices s0 d) /\
          notification_queue (snd e) = notification_queue s0 /\
          events_log_file (snd e) = events_log_file s0) /\
  (dues = [] -> scheduled_tasks_file (snd r) = scheduled_tasks_file s) /\
  (dues <> [] -> (forall n, io_error w n = None) ->
   scheduled_tasks_file (snd r) = Holds (map GoodTask (scheduled_tasks (snd r)))).
Proof.
  intros current_time tasks dues r.
  (* the state after the two loops *)
  set (s0 := set_clock_calls (S (clock_calls s)) s).
  set (s1 := snd (execute_all w dues s0)).
  set (s2 := set_scheduled_tasks (remove_executed dues (scheduled_tasks s1)) s1).
  assert (T1 : scheduled_tasks s1 = tasks).
  { subst s1. now rewrite (frames_execute_all w scheduled_tasks) by ign. }
  assert (F1 : scheduled_tasks_file s1 = scheduled_tasks_file s).
  { subst s1. now rewrite (frames_execute_all w scheduled_tasks_file) by ign. }
  assert (E : r = ((match dues with
                    | [] => ret tt
                    | _ => save_scheduled_tasks w
                    end ;; security_tick w) s2)).
  { subst r. unfold _scheduler_loop_body.
    erewrite bind_ok by reflexivity. erewrite bind_ok by reflexivity.
    erewrite bind_ok by (apply run_due_spec).
    erewrite bind_ok by reflexivity. reflexivity. }
  assert (Rt : returns (security_tick w)).
  { unfold security_tick. returns_auto; apply returns_check_security_system. }
  assert (Ft : forall X (f : State -> X),
             ignores f set_gpio_calls -> ignores f set_pin_level ->
             ignores f set_clock_calls -> ignores f set_io_calls ->
             ignores f set_pending_notifications ->
             ignores f set_pending_notifications_file ->
             frames f (security_tick w)).
  { intros X f H1 H2 H3 H4 H5 H6. unfold security_tick.
    apply frames_bind; [apply frames_gets|].
    intros [|]; [now apply frames_check_security_system | apply frames_ret]. }
  assert (T2 : scheduled_tasks s2 = filter (fun t => negb (due current_time t)) tasks).
  { subst s2. st_simpl. rewrite T1. apply remove_executed_due. }
  assert (B : scheduled_tasks (snd r)
              = filter (fun t => negb (due current_time t)) tasks).
  { rewrite E, <- T2.
    rewrite (frames_bind scheduled_tasks); [reflexivity| |intro; apply Ft; ign].
    destruct dues; [apply frames_ret | apply frames_save_scheduled_tasks; ign]. }
  split.
  { rewrite E. apply returns_unit. apply returns_bind; [|intro; exact Rt].
    destruct dues; [apply returns_ret | apply returns_save_scheduled_tasks]. }
  split; [exact B|].
  split.
  { rewrite B. apply Forall_forall. intros t Ht. apply filter_In in Ht.
    now apply negb_true_iff. }
  split.
  { rewrite E. subst s2. rewrite T1. unfold dues at 2.
    rewrite remove_executed_due. reflexivity. }
  split; [intros; apply execute_scheduled_task_effect|].
  split.
  - intro N. rewrite E, N. erewrite bind_ok by reflexivity.
    rewrite (Ft _ scheduled_tasks_file) by ign. exact F1.
  - intros N I. rewrite B, <- T2, E.
    destruct dues as [|d0 dr] eqn:D; [congruence|].
    destruct (save_scheduled_tasks w s2) as [x s3] eqn:S3.
    pose proof (returns_unit _ s2 (returns_save_scheduled_tasks w)) as R3.
    rewrite S3 in R3. cbn [fst] in R3. subst x.
    rewrite (bind_ok _ _ _ _ _ S3).
    rewrite (Ft _ scheduled_tasks_file) by ign.
    change s3 with (snd (Ok tt, s3)). rewrite <- S3.
    apply save_scheduled_tasks_persists.
    unfold storage_accepts. cbn [seq existsb]. now rewrite I.
Qed.

Lemma C6_witness :
  let r := _scheduler_loop_body simulation due_state in
  fst r = Ok tt /\
  scheduled_tasks (snd r) = [] /\
  scheduled_tasks_file (snd r) = Holds [].
Proof.
  destruct (C6_scheduler_tick simulation due_state) as (R & T & _ & _ & _ & _ & F).
  split; [exact R|]. split; [exact T|].
  rewrite (F ltac:(discriminate) (fun n => eq_refl)), T. reflexivity.
Defined.

(** C6, as stated, fails on the notification: a due task that switches the
    light leaves the pending notifications empty, its text goes to the
    delivery queue and its log entry is of another type, where the same
    command given interactively enqueues one pending notification. *)
Lemma C6_counterexample :
  let scheduled := snd (_scheduler_loop_body simulation due_state) in
  let interactive :=
    snd (generate_response simulation "turn on the light" 1 "Alice" due_state) in
  home_devices scheduled light = on /\
  home_devices interactive light = on /\
  pending_texts scheduled = [] /\
  notification_queue scheduled
    = ["[NOTIFICATION] 🔔 Alice: Light turned ON at 12:00:01"] /\
  pending_texts interactive
    = ["[NOTIFICATION] 🔔 Alice: Light turned ON at 12:00:01"] /\
  notification_queue interactive = [] /\
  pending_notifications scheduled <> pending_notifications interactive.
Proof. vm_compute. repeat split. discriminate. Qed.

(** * Further properties *)

(** ** Relations that every step keeps *)

Section Keeping.

Context {R : State -> State -> Prop}.
Hypothesis R_refl : forall s, R s s.
Hypothesis R_trans : forall a b c, R a b -> R b c -> R a c.

Lemma keeps_ret {A} (a : A) : keeps R (ret a).
Proof. intro s. apply R_refl. Qed.

Lemma keeps_raise {A} (e : exn) : keeps R (@raise A e).
Proof. intro s. apply R_refl. Qed.

Lemma keeps_gets {A} (g : State -> A) : keeps R (gets g).
Proof. intro s. apply R_refl. Qed.

Lemma keeps_modify (g : State -> State) : (forall s, R s (g s)) -> keeps R (modify g).
Proof. intros H s. apply H. Qed.

Lemma keeps_bind {A B} (m : M A) (k : A -> M B) :
  keeps R m -> (forall a, keeps R (k a)) -> keeps R (bind m k).
Proof.
  intros Hm Hk s. unfold bind. specialize (Hm s).
  destruct (m s) as [[a|e] s1]; cbn [snd] in *; [|exact Hm].
  eapply R_trans; [exact Hm | apply Hk].
Qed.

Lemma keeps_try_except {A} (m : M A) (h : exn -> M A) :
  keeps R m -> (forall e, keeps R (h e)) -> keeps R (try_except m h).
Proof.
  intros Hm Hh s. unfold try_except. specialize (Hm s).
  destruct (m s) as [[a|e] s1]; cbn [snd] in *; [exact Hm|].
  eapply R_trans; [exact Hm | apply Hh].
Qed.

End Keeping.

(** Every method of the server keeps a relation that its writes keep.  The
    writes are named one by one, so that each lemma asks only for those its
    method can make. *)
Section Kept_by_the_server.

Variable w : World.
Context {R : State -> State -> Prop}.
Hypothesis R_refl : forall s, R s s.
Hypothesis R_trans : forall a b c, R a b -> R b c -> R a c.

Hypothesis K_clock : forall v s, R s (set_clock_calls v s).
Hypothesis K_io : forall v s, R s (set_io_calls v s).
Hypothesis K_gpio : forall v s, R s (set_gpio_calls v s).
Hypothesis K_pin : forall v s, R s (set_pin_level v s).
Hypothesis K_home : forall v s, R s (set_home_devices v s).
Hypothesis K_armed : forall v s, R s (set_security_system_active v s).
Hypothesis K_tasks : forall v s, R s (set_scheduled_tasks v s).
Hypothesis K_tasks_file : forall v s, R s (set_scheduled_tasks_file v s).
Hypothesis K_queue : forall v s, R s (set_notification_queue v s).
Hypothesis K_chat : forall v s, R s (set_chat_ids v s).
Hypothesis K_chat_file : forall v s, R s (set_chat_ids_file v s).
Hypothesis K_log :
  forall e s, R s (set_events_log_file (Some (log_lines s ++ [EntryLine e])%list) s).
Hypothesis K_add : forall text ts, keeps R (add_pending_notification w text ts).

Ltac kstep :=
  first
    [ apply (keeps_ret R_refl) | apply (keeps_raise R_refl) | apply (keeps_gets R_refl)
    | apply (keeps_bind R_trans); [ | intro ]
    | apply keeps_modify; intro; solve [auto]
    | assumption
    | match goal with
      | |- keeps _ (match ?x with _ => _ end) => destruct x
      end ].

Ltac kauto := repeat kstep.

Lemma keeps_now : keeps R (now w).
Proof. intro s. apply K_clock. Qed.

Lemma keeps_io_call : keeps R (io_call w).
Proof. intro s. apply K_io. Qed.

Lemma keeps_gpio_call : keeps R (gpio_call w).
Proof. intro s. apply K_gpio. Qed.

Lemma keeps_GPIO_output name level : keeps R (GPIO_output w name level).
Proof. unfold GPIO_output. kauto. apply keeps_gpio_call. Qed.

Lemma keeps_GPIO_input name : keeps R (GPIO_input w name).
Proof. unfold GPIO_input. kauto. apply keeps_gpio_call. Qed.

Lemma keeps_log_event t m u i : keeps R (log_event w t m u i).
Proof.
  unfold log_event.
  apply (keeps_bind R_trans); [apply keeps_now|]. intro.
  apply (keeps_bind R_trans); [apply keeps_io_call|].
  intros [e|]; [apply (keeps_ret R_refl)|].
  apply keeps_modify. intro s. apply K_log.
Qed.

Lemma keeps_save_attempts write attempts :
  (forall s, R s (write s)) -> keeps R (save_attempts w write attempts).
Proof.
  intro H. induction attempts as [|a r IH]; cbn [save_attempts].
  - apply (keeps_ret R_refl).
  - apply (keeps_bind R_trans); [apply keeps_io_call|].
    intros [e|]; [exact IH | now apply keeps_modify].
Qed.

Lemma keeps_save_scheduled_tasks : keeps R (save_scheduled_tasks w).
Proof. apply keeps_save_attempts. intro. apply K_tasks_file. Qed.

Lemma keeps_save_chat_ids : keeps R (save_chat_ids w).
Proof. apply keeps_save_attempts. intro. apply K_chat_file. Qed.

Lemma keeps_gpio_attempts d a attempts : keeps R (gpio_attempts w d a attempts).
Proof.
  induction attempts as [|n r IH]; cbn [gpio_attempts].
  - apply (keeps_ret R_refl).
  - apply (keeps_bind R_trans); [apply keeps_GPIO_output|].
    intros [e|]; [|apply (keeps_ret R_refl)].
    destruct (n <? _)%nat; [exact IH | apply (keeps_ret R_refl)].
Qed.

Lemma keeps_control_gpio_device d a : keeps R (control_gpio_device w d a).
Proof.
  unfold control_gpio_device.
  destruct (negb _); [apply (keeps_ret R_refl) | apply keeps_gpio_attempts].
Qed.

Lemma keeps_set_status d a : keeps R (set_status d a).
Proof. apply keeps_modify. intro. apply K_home. Qed.

Lemma keeps_execute_scheduled_task task : keeps R (_execute_scheduled_task w task).
Proof.
  unfold _execute_scheduled_task.
  apply (keeps_bind R_trans); [apply keeps_control_gpio_device|].
  intros [|]; [|apply (keeps_ret R_refl)].
  apply (keeps_bind R_trans); [apply keeps_set_status|]. intro.
  apply (keeps_bind R_trans); [apply keeps_now|]. intro.
  apply (keeps_bind R_trans); [apply keeps_modify; intro; apply K_queue|]. intro.
  apply keeps_log_event.
Qed.

Lemma keeps_run_due ct tasks : keeps R (run_due w ct tasks).
Proof.
  induction tasks as [|t r IH]; cbn [run_due].
  - apply (keeps_ret R_refl).
  - destruct (_ <=? _)%Z; [|exact IH].
    apply (keeps_bind R_trans); [apply keeps_execute_scheduled_task|]. intro.
    apply (keeps_bind R_trans); [exact IH|]. intro. apply (keeps_ret R_refl).
Qed.

Lemma keeps_check_security_system : keeps R (check_security_system w).
Proof.
  unfold check_security_system.
  apply (keeps_bind R_trans); [apply (keeps_gets R_refl)|]. intro.
  destruct (_ || _); [apply (keeps_ret R_refl)|].
  apply (keeps_bind R_trans); [apply keeps_GPIO_input|].
  intros [m|[|]]; try apply (keeps_ret R_refl).
  apply (keeps_bind R_trans); [apply keeps_GPIO_output|].
  intros [m|]; [apply (keeps_ret R_refl)|].
  apply (keeps_bind R_trans); [apply keeps_now|]. intro.
  apply (keeps_bind R_trans); [apply K_add|]. intro.
  apply (keeps_bind R_trans); [apply keeps_GPIO_output|]. intro.
  apply (keeps_ret R_refl).
Qed.

Lemma keeps_scheduler_loop_body : keeps R (_scheduler_loop_body w).
Proof.
  unfold _scheduler_loop_body.
  apply (keeps_bind R_trans); [apply keeps_now|]. intro.
  apply (keeps_bind R_trans); [apply (keeps_gets R_refl)|]. intro.
  apply (keeps_bind R_trans); [apply keeps_run_due|]. intro dues.
  apply (keeps_bind R_trans); [apply keeps_modify; intro; apply K_tasks|]. intro.
  apply (keeps_bind R_trans).
  { destruct dues; [apply (keeps_ret R_refl) | apply keeps_save_scheduled_tasks]. }
  intro. apply (keeps_bind R_trans); [apply (keeps_gets R_refl)|].
  intros [|]; [apply keeps_check_security_system | apply (keeps_ret R_refl)].
Qed.

Lemma keeps_scheduler_loop n : keeps R (_scheduler_loop w n).
Proof.
  induction n as [|n IH]; cbn [_scheduler_loop].
  - apply (keeps_ret R_refl).
  - apply (keeps_bind R_trans); [apply keeps_scheduler_loop_body | intro; exact IH].
Qed.

Lemma keeps_schedule_at text user_name t : keeps R (schedule_at w text user_name t).
Proof.
  unfold schedule_at.
  destruct (scheduled_device text), (scheduled_action text);
    try apply (keeps_ret R_refl).
  apply (keeps_bind R_trans); [apply keeps_modify; intro; apply K_tasks|]. intro.
  apply (keeps_bind R_trans); [apply keeps_save_scheduled_tasks|]. intro.
  apply (keeps_bind R_trans); [apply keeps_log_event|]. intro.
  apply (keeps_ret R_refl).
Qed.

Lemma keeps_checked r : keeps R (checked r).
Proof. destruct r; [apply (keeps_ret R_refl) | apply (keeps_raise R_refl)]. Qed.

Lemma keeps_process_scheduled_command text user_name :
  keeps R (_process_scheduled_command w text user_name).
Proof.
  unfold _process_scheduled_command.
  destruct (Re.search text) as [[g u]|]; [|apply (keeps_ret R_refl)].
  repeat match goal with
         | |- keeps _ (if ?b then _ else _) => destruct b
         end;
    try apply (keeps_ret R_refl);
    (apply (keeps_bind R_trans); [apply keeps_now|]; intro;
     apply (keeps_bind R_trans); [apply keeps_checked|]; intro;
     apply keeps_schedule_at).
Qed.

Lemma keeps_gpio_seq calls :
  Forall (keeps R) calls -> keeps R (gpio_seq calls).
Proof.
  induction 1 as [|c r Hc _ IH]; cbn [gpio_seq].
  - apply (keeps_ret R_refl).
  - apply (keeps_bind R_trans); [exact Hc|].
    intros [m|]; [apply (keeps_ret R_refl) | exact IH].
Qed.

Lemma keeps_initialize_security_system user_name :
  keeps R (initialize_security_system w user_name).
Proof.
  unfold initialize_security_system.
  destruct (negb _); [apply (keeps_ret R_refl)|].
  apply (keeps_bind R_trans).
  { apply keeps_gpio_seq.
    repeat constructor; first [apply keeps_gpio_call | apply keeps_GPIO_output]. }
  intros [m|]; [apply (keeps_ret R_refl)|].
  apply (keeps_bind R_trans); [apply keeps_modify; intro; apply K_armed|]. intro.
  apply (keeps_bind R_trans); [apply keeps_log_event|]. intro.
  apply (keeps_bind R_trans); [apply keeps_now|]. intro.
  apply (keeps_bind R_trans); [apply K_add|]. intro.
  apply (keeps_ret R_refl).
Qed.

Lemma keeps_terminate_security_system user_name :
  keeps R (terminate_security_system w user_name).
Proof.
  unfold terminate_security_system.
  destruct (negb _); [apply (keeps_ret R_refl)|].
  apply (keeps_bind R_trans).
  { apply keeps_gpio_seq.
    repeat constructor; first [apply keeps_gpio_call | apply keeps_GPIO_output]. }
  intros [m|]; [apply (keeps_ret R_refl)|].
  apply (keeps_bind R_trans); [apply keeps_modify; intro; apply K_armed|]. intro.
  apply (keeps_bind R_trans); [apply keeps_log_event|]. intro.
  apply (keeps_bind R_trans); [apply keeps_now|]. intro.
  apply (keeps_bind R_trans); [apply K_add|]. intro.
  apply (keeps_ret R_refl).
Qed.

Lemma keeps_device_command d text user_name :
  keeps R (device_command w d text user_name).
Proof.
  destruct d; cbn [device_command];
    unfold washing_machine_command, ac_command, light_command;
    repeat match goal with
           | |- keeps _ (if ?b then _ else _) => destruct b
           end;
    try (apply (keeps_bind R_trans); [apply (keeps_gets R_refl)|]; intro;
         apply (keeps_ret R_refl));
    (apply (keeps_bind R_trans); [apply keeps_set_status|]; intro;
     apply (keeps_bind R_trans); [apply keeps_control_gpio_device|];
     intros [|]; [|apply (keeps_ret R_refl)];
     apply (keeps_bind R_trans); [apply keeps_log_event|]; intro;
     apply (keeps_ret R_refl)).
Qed.

Lemma keeps_security_command text user_name :
  keeps R (security_command w text user_name).
Proof.
  unfold security_command.
  destruct (_ || _).
  - apply (keeps_bind R_trans); [apply keeps_initialize_security_system|]. intro.
    apply (keeps_bind R_trans); [apply keeps_log_event|]. intro.
    apply (keeps_ret R_refl).
  - destruct (_ || _).
    + apply (keeps_bind R_trans); [apply keeps_terminate_security_system|]. intro.
      apply (keeps_bind R_trans); [apply keeps_log_event|]. intro.
      apply (keeps_ret R_refl).
    + apply (keeps_bind R_trans); [apply (keeps_gets R_refl)|]. intro.
      apply (keeps_ret R_refl).
Qed.

Lemma keeps_process_home_automation text user_name :
  keeps R (process_home_automation w text user_name).
Proof.
  unfold process_home_automation.
  destruct (_ || _); [apply keeps_process_scheduled_command|].
  destruct (Py.contains "washing machine" _);
    [apply (keeps_device_command washing_machine)|].
  destruct (mentions_ac _); [apply (keeps_device_command ac)|].
  destruct (Py.contains "light" _); [apply (keeps_device_command light)|].
  destruct (_ || _); [apply keeps_security_command | apply (keeps_ret R_refl)].
Qed.

Lemma keeps_get_log_details : keeps R (get_log_details w).
Proof.
  unfold get_log_details.
  apply (keeps_bind R_trans); [apply (keeps_gets R_refl)|].
  intros [lines|]; [|apply (keeps_ret R_refl)].
  apply (keeps_bind R_trans); [apply keeps_io_call|].
  intros [m|]; apply (keeps_ret R_refl).
Qed.

Lemma keeps_announce text user_name : keeps R (announce w text user_name).
Proof.
  unfold announce.
  destruct (any_in _ _); [|apply (keeps_ret R_refl)].
  destruct (notified_device _); [|apply (keeps_ret R_refl)].
  apply (keeps_bind R_trans); [apply keeps_now | intro; apply K_add].
Qed.

Lemma keeps_generate_response text user_id user_name :
  keeps R (generate_response w text user_id user_name).
Proof.
  unfold generate_response.
  apply (keeps_bind R_trans); [apply keeps_process_home_automation|].
  intros [|c r].
  - destruct (Py.contains "log details" _); [apply keeps_get_log_details|].
    repeat match goal with
           | |- keeps _ (if ?b then _ else _) => destruct b
           end; try apply (keeps_ret R_refl).
    unfold status_report.
    apply (keeps_bind R_trans); [apply (keeps_gets R_refl)|]. intro.
    apply (keeps_ret R_refl).
  - apply (keeps_bind R_trans); [apply keeps_announce|]. intro.
    apply (keeps_ret R_refl).
Qed.

Lemma keeps_add_chat_id chat_id : keeps R (add_chat_id w chat_id).
Proof.
  unfold add_chat_id.
  apply (keeps_bind R_trans); [apply (keeps_gets R_refl)|]. intro ids.
  destruct (existsb _ ids); [apply (keeps_ret R_refl)|].
  apply (keeps_bind R_trans); [apply keeps_modify; intro; apply K_chat|]. intro.
  apply keeps_save_chat_ids.
Qed.

Lemma keeps_send_message message user_name user_id :
  keeps R (send_message w message user_name user_id).
Proof.
  unfold send_message.
  apply (keeps_bind R_trans); [apply keeps_add_chat_id|]. intro.
  apply (keeps_bind R_trans).
  { apply (keeps_try_except R_trans); [apply keeps_generate_response|].
    intro. apply (keeps_ret R_refl). }
  intro. apply (keeps_bind R_trans); [|intro; apply (keeps_ret R_refl)].
  destruct (any_in _ _).
  - destruct (notified_device _); [|apply (keeps_ret R_refl)].
    destruct (Py.contains "schedule" _); [apply (keeps_ret R_refl)|].
    apply (keeps_bind R_trans); [apply keeps_now|]. intro.
    apply (keeps_bind R_trans); [apply K_add|]. intro.
    apply keeps_modify. intro. apply K_queue.
  - destruct (any_in _ _); [|apply (keeps_ret R_refl)].
    apply (keeps_bind R_trans); [apply keeps_now|]. intro.
    apply (keeps_bind R_trans); [apply K_add|]. intro.
    apply keeps_modify. intro. apply K_queue.
Qed.

End Kept_by_the_server.

Lemma same_refl {X} (f : State -> X) s : same f s s.
Proof. reflexivity. Qed.

Lemma same_trans {X} (f : State -> X) a b c : same f a b -> same f b c -> same f a c.
Proof. unfold same. congruence. Qed.

Lemma log_extends_refl s : log_extends s s.
Proof. exists []. cbn [map]. now rewrite app_nil_r. Qed.

Lemma log_extends_trans a b c : log_extends a b -> log_extends b c -> log_extends a c.
Proof.
  intros [x Hx] [y Hy]. exists (x ++ y)%list.
  now rewrite Hy, Hx, map_app, app_assoc.
Qed.

Lemma log_extends_same s s' : log_lines s' = log_lines s -> log_extends s s'.
Proof. intro H. exists []. cbn [map]. now rewrite app_nil_r. Qed.

Lemma cap_stays_refl s : cap_stays s s.
Proof. intro H. exact H. Qed.

Lemma cap_stays_trans a b c : cap_stays a b -> cap_stays b c -> cap_stays a c.
Proof. unfold cap_stays. auto. Qed.

(** ** Driving a relay *)

Section Relay.

Variable w : World.

(** X1.  With a GPIO library, a call that reports success has written the
    level of the action to the relay pin of the device, low for on and high
    for off, and to no other pin; a call that reports failure has written to
    no pin.  Between one and three GPIO calls are made.  Without a GPIO
    library the call reports success and changes nothing. *)
Theorem relay_follows_the_report d a s :
  let r := control_gpio_device w d a s in
  let pin := GPIO_PINS w (relay d) in
  (GPIO_AVAILABLE w = false -> r = (Ok true, s)) /\
  (GPIO_AVAILABLE w = true ->
   gpio_calls s < gpio_calls (snd r) <= gpio_calls s + 3 /\
   (fst r = Ok true ->
    pin_level (snd r) pin = relay_level a /\
    forall p, p <> pin -> pin_level (snd r) p = pin_level s p) /\
   (fst r = Ok false -> forall p, pin_level (snd r) p = pin_level s p)).
Proof.
  intros r pin. subst r. unfold control_gpio_device. split.
  - intros ->. reflexivity.
  - intros ->. cbn [negb]. unfold max_retries. cbn [seq gpio_attempts].
    unfold max_retries. cbn [Nat.sub Nat.ltb Nat.leb]. unfold GPIO_output. run.
    fold pin. fold (relay_level a).
    assert (P : forall (l : Z -> bool) p,
               p <> pin -> (if (p =? pin)%Z then relay_level a else l p) = l p).
    { intros l p Hp. destruct (Z.eqb_spec p pin); [contradiction | reflexivity]. }
    destruct (gpio_error w (gpio_calls s)); st_simpl;
      [destruct (gpio_error w (S (gpio_calls s))); st_simpl;
       [destruct (gpio_error w (S (S (gpio_calls s)))); st_simpl|]|];
      (split; [lia|]); (split; intros F); try discriminate;
      try (split; [now rewrite Z.eqb_refl | intros p Hp; now apply P]);
      reflexivity.
Qed.

(** X2.  The retries stop at the first GPIO call that goes through: when
    the first [k] calls raise and the next one does not, with [k] below 3,
    the device call reports success after [k + 1] GPIO calls; when three
    calls raise it reports failure after exactly three. *)
Theorem retries_stop_at_first_success d a s :
  GPIO_AVAILABLE w = true ->
  let r := control_gpio_device w d a s in
  (forall k, k < 3 ->
     (forall j, j < k -> gpio_error w (gpio_calls s + j) <> None) ->
     gpio_error w (gpio_calls s + k) = None ->
     fst r = Ok true /\ gpio_calls (snd r) = gpio_calls s + k + 1) /\
  ((forall j, j < 3 -> gpio_error w (gpio_calls s + j) <> None) ->
   fst r = Ok false /\ gpio_calls (snd r) = gpio_calls s + 3).
Proof.
  intros G r. subst r. unfold control_gpio_device. rewrite G.
  cbn [negb]. unfold max_retries. cbn [seq gpio_attempts].
  unfold max_retries. cbn [Nat.sub Nat.ltb Nat.leb]. unfold GPIO_output. run.
  split.
  - intros k Hk F Hs.
    destruct k as [|[|[|k]]]; [| | |lia].
    + rewrite Nat.add_0_r in Hs. rewrite Hs. st_simpl. split; [reflexivity | lia].
    + pose proof (F 0 ltac:(lia)) as F0. rewrite Nat.add_0_r in F0.
      replace (gpio_calls s + 1) with (S (gpio_calls s)) in Hs by lia.
      destruct (gpio_error w (gpio_calls s)); [|congruence]. st_simpl.
      rewrite Hs. st_simpl. split; [reflexivity | lia].
    + pose proof (F 0 ltac:(lia)) as F0. rewrite Nat.add_0_r in F0.
      pose proof (F 1 ltac:(lia)) as F1.
      replace (gpio_calls s + 1) with (S (gpio_calls s)) in F1 by lia.
      replace (gpio_calls s + 2) with (S (S (gpio_calls s))) in Hs by lia.
      destruct (gpio_error w (gpio_calls s)); [|congruence]. st_simpl.
      destruct (gpio_error w (S (gpio_calls s))); [|congruence]. st_simpl.
      rewrite Hs. st_simpl. split; [reflexivity | lia].
  - intro F.
    pose proof (F 0 ltac:(lia)) as F0. rewrite Nat.add_0_r in F0.
    pose proof (F 1 ltac:(lia)) as F1.
    replace (gpio_calls s + 1) with (S (gpio_calls s)) in F1 by lia.
    pose proof (F 2 ltac:(lia)) as F2.
    replace (gpio_calls s + 2) with (S (S (gpio_calls s))) in F2 by lia.
    destruct (gpio_error w (gpio_calls s)); [|congruence]. st_simpl.
    destruct (gpio_error w (S (gpio_calls s))); [|congruence]. st_simpl.
    destruct (gpio_error w (S (S (gpio_calls s)))); [|congruence]. st_simpl.
    split; [reflexivity | lia].
Qed.

End Relay.

(** ** Saving and loading *)

Section Storage.

Variable w : World.

(** X3.  The three [save_*] methods share one loop.  It never raises.  The
    write is made by the first of at most three attempts whose [open] goes
    through, and no attempt follows it; when [open] raises three times, the
    file and the memory are left as they were and the caller is not told. *)
Theorem save_commits_at_first_success write s :
  let n := io_calls s in
  let r := save_attempts w write (seq 0 3) s in
  fst r = Ok tt /\
  (forall k, k < 3 ->
     (forall j, j < k -> io_error w (n + j) <> None) ->
     io_error w (n + k) = None ->
     snd r = write (set_io_calls (n + k + 1) s)) /\
  ((forall j, j < 3 -> io_error w (n + j) <> None) ->
   snd r = set_io_calls (n + 3) s).
Proof.
  intros n r. subst r. split; [apply returns_unit, returns_save_attempts|].
  cbn [seq save_attempts]. run. fold n. split.
  - intros k Hk F Hs.
    destruct k as [|[|[|k]]]; [| | |lia].
    + rewrite Nat.add_0_r in Hs. rewrite Hs. st_simpl.
      now replace (n + 0 + 1) with (S n) by lia.
    + pose proof (F 0 ltac:(lia)) as F0. rewrite Nat.add_0_r in F0.
      replace (n + 1) with (S n) in Hs by lia.
      destruct (io_error w n); [|congruence]. st_simpl.
      rewrite Hs. st_simpl. now replace (n + 1 + 1) with (S (S n)) by lia.
    + pose proof (F 0 ltac:(lia)) as F0. rewrite Nat.add_0_r in F0.
      pose proof (F 1 ltac:(lia)) as F1.
      replace (n + 1) with (S n) in F1 by lia.
      replace (n + 2) with (S (S n)) in Hs by lia.
      destruct (io_error w n); [|congruence]. st_simpl.
      destruct (io_error w (S n)); [|congruence]. st_simpl.
      rewrite Hs. st_simpl. now replace (n + 2 + 1) with (S (S (S n))) by lia.
  - intro F.
    pose proof (F 0 ltac:(lia)) as F0. rewrite Nat.add_0_r in F0.
    pose proof (F 1 ltac:(lia)) as F1. replace (n + 1) with (S n) in F1 by lia.
    pose proof (F 2 ltac:(lia)) as F2. replace (n + 2) with (S (S n)) in F2 by lia.
    destruct (io_error w n); [|congruence]. st_simpl.
    destruct (io_error w (S n)); [|congruence]. st_simpl.
    destruct (io_error w (S (S n))); [|congruence]. st_simpl.
    now replace (n + 3) with (S (S (S n))) by lia.
Qed.

(** When no attempt goes through, nothing but the count of file operations
    has changed. *)
Lemma save_attempts_gives_up write s :
  storage_accepts w (io_calls s) = false ->
  save_attempts w write (seq 0 3) s = (Ok tt, set_io_calls (io_calls s + 3) s).
Proof.
  unfold storage_accepts. cbn [seq existsb save_attempts].
  rewrite Nat.add_0_r.
  replace (io_calls s + 1) with (S (io_calls s)) by lia.
  replace (io_calls s + 2) with (S (S (io_calls s))) by lia.
  replace (io_calls s + 3) with (S (S (S (io_calls s)))) by lia.
  run. intro H.
  destruct (io_error w (io_calls s)); [st_simpl|discriminate].
  destruct (io_error w (S (io_calls s))); [st_simpl|discriminate].
  destruct (io_error w (S (S (io_calls s)))); [reflexivity|discriminate].
Qed.

Section Reading.

Context {A B : Type} (stored : State -> file A) (name : string)
        (decode : A -> B) (default : B).
Hypothesis stored_io : ignores stored set_io_calls.

Lemma load_file_holds s data :
  stored s = Holds data ->
  io_error w (io_calls s) = None ->
  load_file w stored name decode default s
    = (Ok (decode data), set_io_calls (S (io_calls s)) s).
Proof.
  intros H E. unfold load_file. run. rewrite H.
  cbn [seq]. rewrite load_attempts_cons. run. now rewrite stored_io, H, E.
Qed.

Lemma load_file_missing s :
  stored s = Missing -> load_file w stored name decode default s = (Ok default, s).
Proof. intro H. unfold load_file. run. now rewrite H. Qed.

End Reading.

Lemma validated_good tasks : validated_tasks (map GoodTask tasks) = tasks.
Proof. induction tasks as [|t r IH]; [reflexivity|]. cbn. now rewrite IH. Qed.

(** X4.  What a [save_*] method has written, the matching [load_*] method
    reads back: when one of the three attempts to write goes through and
    the file opens at the first attempt, the loader returns the tasks and
    the notifications as they were in memory when saved, in the same order,
    and a set of chat ids with the same members. *)
Theorem saved_collections_load_back s :
  storage_accepts w (io_calls s) = true ->
  (let s1 := snd (save_scheduled_tasks w s) in
   io_error w (io_calls s1) = None ->
   fst (load_scheduled_tasks w s1) = Ok (scheduled_tasks s)) /\
  (let s1 := snd (save_pending_notifications w s) in
   io_error w (io_calls s1) = None ->
   fst (load_pending_notifications w s1) = Ok (pending_notifications s)) /\
  (let s1 := snd (save_chat_ids w s) in
   io_error w (io_calls s1) = None ->
   exists ids,
     fst (load_chat_ids w s1) = Ok ids /\ NoDup ids /\
     forall x, In x ids <-> In x (chat_ids s)).
Proof.
  intro H.
  unfold save_scheduled_tasks, save_pending_notifications, save_chat_ids.
  split; [|split].
  - destruct (save_attempts_commits w
        (fun s => set_scheduled_tasks_file (Holds (map GoodTask (scheduled_tasks s))) s)
        s H) as [k ->].
    cbn [snd]. intros E. unfold load_scheduled_tasks.
    erewrite load_file_holds; [|ign|reflexivity|exact E].
    cbn [fst]. st_simpl. now rewrite validated_good.
  - destruct (save_attempts_commits w
        (fun s => set_pending_notifications_file (Holds (pending_notifications s)) s)
        s H) as [k ->].
    cbn [snd]. intros E. unfold load_pending_notifications.
    erewrite load_file_holds; [|ign|reflexivity|exact E]. reflexivity.
  - destruct (save_attempts_commits w
        (fun s => set_chat_ids_file (Holds (chat_ids s)) s) s H) as [k ->].
    cbn [snd]. intros E. unfold load_chat_ids.
    erewrite load_file_holds; [|ign|reflexivity|exact E].
    cbn [fst]. st_simpl. eexists. split; [reflexivity|].
    split; [apply NoDup_nodup | intro x; apply nodup_In].
Qed.

End Storage.

Lemma saved_collections_load_back_witness :
  fst (load_scheduled_tasks simulation (snd (save_scheduled_tasks simulation due_state)))
    = Ok [light_on_at_noon].
Proof.
  destruct (saved_collections_load_back simulation due_state eq_refl) as (P & _).
  exact (P eq_refl).
Defined.

Lemma retries_stop_at_first_success_witness :
  fst (control_gpio_device flaky_gpio light on initial_state) = Ok true /\
  gpio_calls (snd (control_gpio_device flaky_gpio light on initial_state)) = 0 + 1 + 1.
Proof.
  destruct (retries_stop_at_first_success flaky_gpio light on initial_state eq_refl)
    as (P & _).
  apply (P 1); [lia | | reflexivity].
  intros j Hj. destruct j; [discriminate | lia].
Defined.

(** ** Polling the pending notifications *)

Section Polling.

Variable w : World.

(** [add_pending_notification] up to its last step. *)
Lemma add_pending_notification_steps text ts s :
  exists n s2,
    ntf_text n = text /\
    add_pending_notification w text ts s = save_pending_notifications w s2 /\
    pending_notifications s2 = Py.last_n 100 (pending_notifications s ++ [n]) /\
    io_calls s2 = io_calls s /\
    pending_notifications_file s2 = pending_notifications_file s.
Proof.
  unfold add_pending_notification.
  assert (E : exists stamp s1,
             match ts with
             | Some ts0 => ret ts0
             | None => t <- now w;; ret (isoformat w t)
             end s = (Ok stamp, s1)
             /\ pending_notifications s1 = pending_notifications s
             /\ io_calls s1 = io_calls s
             /\ pending_notifications_file s1 = pending_notifications_file s).
  { destruct ts; eexists _, _; repeat split; reflexivity. }
  destruct E as (stamp & s1 & E & F1 & F2 & F3).
  rewrite (bind_ok _ _ _ _ _ E).
  erewrite bind_ok by reflexivity.
  erewrite bind_ok by reflexivity.
  cbv beta zeta.
  eexists {| ntf_text := text; ntf_timestamp := stamp;
             ntf_id := md5_id w (text ++ stamp) |}, _.
  split; [reflexivity|]. split; [reflexivity|].
  rewrite <- F1, <- F2, <- F3.
  destruct (100 <? _)%nat eqn:L; st_simpl; repeat split.
  apply Nat.ltb_ge in L. st_simpl. now rewrite last_n_all.
Qed.

Lemma get_notifications_holds s l :
  pending_notifications_file s = Holds l ->
  io_error w (io_calls s) = None ->
  get_notifications w s
    = (Ok (l, length l),
       set_pending_notifications l (set_io_calls (S (io_calls s)) s)).
Proof.
  intros H E. unfold get_notifications, get_pending_notifications,
    load_pending_notifications.
  unfold bind at 1 2.
  rewrite (load_file_holds w pending_notifications_file _ _ _ ltac:(ign) s l H E).
  reflexivity.
Qed.

Lemma get_notifications_missing s :
  pending_notifications_file s = Missing ->
  get_notifications w s = (Ok ([], 0), set_pending_notifications [] s).
Proof.
  intros H. unfold get_notifications, get_pending_notifications,
    load_pending_notifications.
  unfold bind at 1 2.
  rewrite (load_file_missing w pending_notifications_file _ _ _ s H).
  reflexivity.
Qed.

(** X5.  A notification that was added and saved is what the next poll
    returns: [get_notifications] answers with the list held in memory and
    its length, and leaves the list and the file as they were, so that the
    poll after it returns the same notifications again. *)
Theorem poll_returns_saved_notifications text ts s :
  storage_accepts w (io_calls s) = true ->
  let s1 := snd (add_pending_notification w text ts s) in
  io_error w (io_calls s1) = None ->
  let p := get_notifications w s1 in
  fst p = Ok (pending_notifications s1, length (pending_notifications s1)) /\
  (exists n older, ntf_text n = text /\ pending_notifications s1 = (older ++ [n])%list) /\
  pending_notifications (snd p) = pending_notifications s1 /\
  pending_notifications_file (snd p) = Holds (pending_notifications s1) /\
  (io_error w (io_calls (snd p)) = None ->
   fst (get_notifications w (snd p)) = fst p).
Proof.
  intros H s1 E p.
  destruct (add_pending_notification_steps text ts s) as (n & s2 & N & R & P & I & F).
  assert (S1 : pending_notifications_file s1 = Holds (pending_notifications s1)).
  { subst s1. rewrite R. unfold save_pending_notifications.
    rewrite <- I in H.
    destruct (save_attempts_commits w
      (fun s => set_pending_notifications_file (Holds (pending_notifications s)) s)
      s2 H) as [k ->]. reflexivity. }
  subst p. rewrite (get_notifications_holds s1 _ S1 E). st_simpl.
  split; [reflexivity|]. split; [|split; [reflexivity|split; [exact S1|]]].
  - exists n. subst s1. rewrite R. unfold save_pending_notifications.
    rewrite (frames_save_attempts w pending_notifications) by ign.
    rewrite P. unfold Py.last_n.
    set (l := (pending_notifications s ++ [n])%list).
    set (k := length l - 100).
    assert (K : k <= length (pending_notifications s)).
    { subst k l. rewrite length_app. cbn [length]. lia. }
    exists (skipn k (pending_notifications s)). split; [exact N|].
    subst l. rewrite skipn_app.
    replace (k - length (pending_notifications s)) with 0 by lia. reflexivity.
  - intro E2.
    rewrite (get_notifications_holds
               (set_pending_notifications _ (set_io_calls _ s1)) _ S1 E2).
    reflexivity.
Qed.

(** X6.  A notification whose save failed three times is in memory only,
    and the next poll loses it: [get_pending_notifications] replaces the
    list in memory by the content of the file, which is the list of before,
    or the empty list when there is no file. *)
Theorem unsaved_notification_lost_by_poll text ts s :
  storage_accepts w (io_calls s) = false ->
  let s1 := snd (add_pending_notification w text ts s) in
  let p := get_pending_notifications w s1 in
  (exists n, ntf_text n = text /\
     pending_notifications s1 = Py.last_n 100 (pending_notifications s ++ [n])) /\
  (forall l, pending_notifications_file s = Holds l ->
     io_error w (io_calls s + 3) = None ->
     fst p = Ok l /\ pending_notifications (snd p) = l) /\
  (pending_notifications_file s = Missing ->
   fst p = Ok [] /\ pending_notifications (snd p) = []).
Proof.
  intros H s1 p.
  destruct (add_pending_notification_steps text ts s) as (n & s2 & N & R & P & I & F).
  assert (S1 : s1 = set_io_calls (io_calls s + 3) s2).
  { subst s1. rewrite R. unfold save_pending_notifications.
    rewrite <- I in *. now rewrite save_attempts_gives_up. }
  split; [exists n; split; [exact N|]; now rewrite S1|].
  subst p. unfold get_pending_notifications, load_pending_notifications.
  unfold bind. split.
  - intros l L E.
    rewrite (load_file_holds w pending_notifications_file _ _ _ ltac:(ign) s1 l);
      [split; reflexivity | rewrite S1; st_simpl; congruence
      | rewrite S1; exact E].
  - intros L.
    rewrite (load_file_missing w pending_notifications_file _ _ _ s1);
      [split; reflexivity | rewrite S1; st_simpl; congruence].
Qed.

(** X7.  [clear_pending_notifications] empties the list in memory.  Once
    the empty list is saved the next poll returns nothing; when the save
    fails three times the file is as before and the next poll brings the
    cleared notifications back. *)
Theorem clear_then_poll s :
  let s1 := snd (clear_pending_notifications w s) in
  pending_notifications s1 = [] /\
  (storage_accepts w (io_calls s) = true ->
   io_error w (io_calls s1) = None ->
   fst (get_notifications w s1) = Ok ([], 0)) /\
  (storage_accepts w (io_calls s) = false ->
   forall l, pending_notifications_file s = Holds l ->
   io_error w (io_calls s + 3) = None ->
   fst (get_notifications w s1) = Ok (l, length l)).
Proof.
  intros s1. subst s1. unfold clear_pending_notifications.
  erewrite bind_ok by reflexivity. unfold save_pending_notifications.
  split; [now rewrite (frames_save_attempts w pending_notifications) by ign|].
  split.
  - intro H.
    destruct (save_attempts_commits w
      (fun s => set_pending_notifications_file (Holds (pending_notifications s)) s)
      (set_pending_notifications [] s) H) as [k ->].
    cbn [snd]. intro E.
    erewrite get_notifications_holds; cycle 1; [reflexivity | exact E | reflexivity].
  - intros H l L E.
    rewrite (save_attempts_gives_up w _ (set_pending_notifications [] s) H).
    cbn [snd]. erewrite get_notifications_holds; [reflexivity | exact L | exact E].
Qed.

(** X8.  [add_chat_id] keeps the chat ids a set: the id is a member
    afterwards, no member is lost, no id appears twice if none did, and an
    id that is already a member changes nothing, so that no file is
    written.  A new id is saved together with the others. *)
Theorem add_chat_id_keeps_a_set chat_id s :
  let r := add_chat_id w chat_id s in
  fst r = Ok tt /\
  In chat_id (chat_ids (snd r)) /\
  (forall x, In x (chat_ids s) -> In x (chat_ids (snd r))) /\
  (forall x, In x (chat_ids (snd r)) -> x = chat_id \/ In x (chat_ids s)) /\
  (NoDup (chat_ids s) -> NoDup (chat_ids (snd r))) /\
  (In chat_id (chat_ids s) -> snd r = s) /\
  (~ In chat_id (chat_ids s) -> storage_accepts w (io_calls s) = true ->
   exists ids,
     chat_ids_file (snd r) = Holds ids /\
     forall x, In x ids <-> x = chat_id \/ In x (chat_ids s)).
Proof.
  intros r. subst r. unfold add_chat_id.
  erewrite bind_ok by reflexivity.
  destruct (existsb (Z.eqb chat_id) (chat_ids s)) eqn:M.
  - apply existsb_exists in M. destruct M as (x & Hx & Ex).
    apply Z.eqb_eq in Ex. subst x. cbn [ret fst snd].
    repeat split; auto. intro N. contradiction.
  - assert (N : ~ In chat_id (chat_ids s)).
    { intro I. assert (T : existsb (Z.eqb chat_id) (chat_ids s) = true).
      { apply existsb_exists. exists chat_id. split; [exact I | apply Z.eqb_refl]. }
      congruence. }
    erewrite bind_ok by reflexivity. unfold save_chat_ids.
    split; [apply returns_unit, returns_save_attempts|].
    assert (C : chat_ids (snd (save_attempts w
                 (fun s => set_chat_ids_file (Holds (chat_ids s)) s) (seq 0 3)
                 (set_chat_ids (chat_id :: chat_ids s) s))) = chat_id :: chat_ids s)
      by now rewrite (frames_save_attempts w chat_ids) by ign.
    rewrite C.
    split; [now left|]. split; [intros x Hx; now right|].
    split; [intros x [-> | Hx]; auto|].
    split; [intro D; now constructor|].
    split; [intro I; contradiction|].
    intros _ H.
    destruct (save_attempts_commits w
      (fun s => set_chat_ids_file (Holds (chat_ids s)) s)
      (set_chat_ids (chat_id :: chat_ids s) s) H) as [k ->].
    eexists. split; [reflexivity|]. st_simpl. cbn [In]. intuition.
Qed.

End Polling.

Lemma poll_returns_saved_notifications_witness :
  fst (get_notifications simulation
         (snd (add_pending_notification simulation "[ALERT] test" None initial_state)))
  = Ok (pending_notifications
          (snd (add_pending_notification simulation "[ALERT] test" None initial_state)),
        length (pending_notifications
          (snd (add_pending_notification simulation "[ALERT] test" None initial_state)))).
Proof.
  destruct (poll_returns_saved_notifications simulation "[ALERT] test" None
              initial_state eq_refl eq_refl) as (P & _).
  exact P.
Defined.

Lemma unsaved_notification_lost_by_poll_witness :
  fst (get_pending_notifications locked_disk
         (snd (add_pending_notification locked_disk "[ALERT] test" None initial_state)))
  = Ok [].
Proof.
  destruct (unsaved_notification_lost_by_poll locked_disk "[ALERT] test" None
              initial_state eq_refl) as (_ & _ & P).
  exact (proj1 (P eq_refl)).
Defined.

(** ** What every request and every tick keep *)

Lemma cap_stays_add w text ts : keeps cap_stays (add_pending_notification w text ts).
Proof.
  intros s _. destruct (add_pending_notification_appends w text ts s) as (n & _ & ->).
  apply last_n_length.
Qed.

Lemma log_extends_add w text ts : keeps log_extends (add_pending_notification w text ts).
Proof.
  intro s. apply log_extends_same.
  apply (frames_add_pending_notification w log_lines); ign.
Qed.

Lemma log_extends_log e s :
  log_extends s (set_events_log_file (Some (log_lines s ++ [EntryLine e])%list) s).
Proof. now exists [e]. Qed.

(** X9.  The cap of 100 pending notifications is an invariant of the
    server: a request, an interpreted command and any number of scheduler
    ticks, whatever they enqueue, leave at most 100 pending notifications
    when there were at most 100. *)
Theorem pending_cap_is_kept w s :
  length (pending_notifications s) <= 100 ->
  (forall message user_name user_id,
     length (pending_notifications
               (snd (send_message w message user_name user_id s))) <= 100) /\
  (forall text user_name,
     length (pending_notifications
               (snd (process_home_automation w text user_name s))) <= 100) /\
  (forall n,
     length (pending_notifications (snd (_scheduler_loop w n s))) <= 100).
Proof.
  intro H.
  split; [|split]; intros.
  - apply (keeps_send_message w cap_stays_refl cap_stays_trans);
      try (intros; intro; assumption); [apply cap_stays_add | exact H].
  - apply (keeps_process_home_automation w cap_stays_refl cap_stays_trans);
      try (intros; intro; assumption); [apply cap_stays_add | exact H].
  - apply (keeps_scheduler_loop w cap_stays_refl cap_stays_trans);
      try (intros; intro; assumption); [apply cap_stays_add | exact H].
Qed.

Lemma pending_cap_is_kept_witness :
  length (pending_notifications
            (snd (send_message simulation "turn on the light" "Alice" 1 full_state)))
  <= 100.
Proof.
  apply (pending_cap_is_kept simulation full_state).
  vm_compute. lia.
Defined.

(** X10.  The event log is append-only: a request and any number of
    scheduler ticks leave every line of the log where it was and only add
    well-formed records at its end. *)
Theorem event_log_is_append_only w s :
  (forall message user_name user_id,
     exists added,
       log_lines (snd (send_message w message user_name user_id s))
         = (log_lines s ++ map EntryLine added)%list) /\
  (forall n,
     exists added,
       log_lines (snd (_scheduler_loop w n s))
         = (log_lines s ++ map EntryLine added)%list).
Proof.
  split; intros.
  - apply (keeps_send_message w log_extends_refl log_extends_trans);
      try (intros; apply log_extends_same; reflexivity);
      [apply log_extends_log | apply log_extends_add].
  - apply (keeps_scheduler_loop w log_extends_refl log_extends_trans);
      try (intros; apply log_extends_same; reflexivity);
      [apply log_extends_log | apply log_extends_add].
Qed.

(** X11.  The background loop never arms or disarms the security system
    and never registers or forgets a chat, however many ticks run and
    whatever the tasks and the sensor do. *)
Theorem scheduler_leaves_flag_and_chats w n s :
  security_system_active (snd (_scheduler_loop w n s)) = security_system_active s /\
  chat_ids (snd (_scheduler_loop w n s)) = chat_ids s /\
  chat_ids_file (snd (_scheduler_loop w n s)) = chat_ids_file s.
Proof.
  split; [|split].
  - apply (keeps_scheduler_loop w (same_refl security_system_active)
             (same_trans security_system_active)); try (intros; reflexivity).
    intros text ts s0.
    apply (frames_add_pending_notification w security_system_active); ign.
  - apply (keeps_scheduler_loop w (same_refl chat_ids) (same_trans chat_ids));
      try (intros; reflexivity).
    intros text ts s0. apply (frames_add_pending_notification w chat_ids); ign.
  - apply (keeps_scheduler_loop w (same_refl chat_ids_file)
             (same_trans chat_ids_file)); try (intros; reflexivity).
    intros text ts s0. apply (frames_add_pending_notification w chat_ids_file); ign.
Qed.

(** ** The interpreter as a whole *)


Section Answers.

Variable w : World.












End Answers.

Section Queries.

Variable w : World.






End Queries.


(** ** Capitalisation *)



Section Requests.

Variable w : World.








End Requests.

(** ** The security system on a Raspberry Pi *)

Section Security.

Variable w : World.

Lemma gpio_works_nth s k j :
  gpio_works w s k -> j < k -> gpio_error w (j + gpio_calls s) = None.
Proof. intros W H. rewrite Nat.add_comm. now apply W. Qed.

Lemma gpio_seq_cons c rest :
  gpio_seq (c :: rest) =
  (e <- c ;; match e with Some m => ret (Some m) | None => gpio_seq rest end).
Proof. reflexivity. Qed.

Lemma GPIO_setup_ok name s :
  gpio_error w (gpio_calls s) = None ->
  GPIO_setup w name s = (Ok None, set_gpio_calls (S (gpio_calls s)) s).
Proof. intro E. unfold GPIO_setup. run. now rewrite E. Qed.

Lemma GPIO_setup_fails name s e :
  gpio_error w (gpio_calls s) = Some e ->
  GPIO_setup w name s = (Ok (Some e), set_gpio_calls (S (gpio_calls s)) s).
Proof. intro E. unfold GPIO_setup. run. now rewrite E. Qed.

Lemma GPIO_output_ok name level s :
  gpio_error w (gpio_calls s) = None ->
  GPIO_output w name level s =
  (Ok None,
   set_pin_level (fun p => if (p =? GPIO_PINS w name)%Z then level else pin_level s p)
     (set_gpio_calls (S (gpio_calls s)) s)).
Proof. intro E. unfold GPIO_output. run. now rewrite E. Qed.

Lemma GPIO_output_fails name level s e :
  gpio_error w (gpio_calls s) = Some e ->
  GPIO_output w name level s = (Ok (Some e), set_gpio_calls (S (gpio_calls s)) s).
Proof. intro E. unfold GPIO_output. run. now rewrite E. Qed.

End Security.

(** One call of a [try] block of GPIO calls that goes through, or raises. *)
Ltac gpio_ok E :=
  rewrite gpio_seq_cons;
  erewrite bind_ok by (first [apply GPIO_setup_ok | apply GPIO_output_ok]; exact E);
  cbv beta iota.

Ltac gpio_fails E :=
  rewrite gpio_seq_cons;
  erewrite bind_ok by (first [apply GPIO_setup_fails | apply GPIO_output_fails]; exact E);
  cbv beta iota.

Section Arming.

Variable w : World.
Hypothesis on_hardware : GPIO_AVAILABLE w = true.

(** The five GPIO calls of [initialize_security_system], all going through. *)
Lemma initialize_gpio s :
  gpio_works w s 5 ->
  exists s1,
    gpio_seq [GPIO_setup w laser_module; GPIO_output w laser_module HIGH;
              GPIO_setup w ldr_sensor;
              GPIO_setup w buzzer; GPIO_output w buzzer LOW] s = (Ok None, s1) /\
    s1 = set_pin_level (pin_level s1) (set_gpio_calls (gpio_calls s + 5) s) /\
    pin_level s1 (GPIO_PINS w buzzer) = LOW /\
    (GPIO_PINS w laser_module <> GPIO_PINS w buzzer ->
     pin_level s1 (GPIO_PINS w laser_module) = HIGH) /\
    (forall p, p <> GPIO_PINS w laser_module -> p <> GPIO_PINS w buzzer ->
       pin_level s1 p = pin_level s p).
Proof.
  intro W.
  pose proof (gpio_works_nth w s 5 0 W ltac:(lia)) as E0.
  pose proof (gpio_works_nth w s 5 1 W ltac:(lia)) as E1.
  pose proof (gpio_works_nth w s 5 2 W ltac:(lia)) as E2.
  pose proof (gpio_works_nth w s 5 3 W ltac:(lia)) as E3.
  pose proof (gpio_works_nth w s 5 4 W ltac:(lia)) as E4.
  cbn [Nat.add] in *.
  eexists. split.
  { gpio_ok E0. gpio_ok E1. gpio_ok E2. gpio_ok E3. gpio_ok E4. reflexivity. }
  st_simpl. replace (gpio_calls s + 5) with (S (S (S (S (S (gpio_calls s)))))) by lia.
  split; [reflexivity|]. rewrite Z.eqb_refl.
  split; [reflexivity|]. split.
  - intro D. apply Z.eqb_neq in D. now rewrite D, Z.eqb_refl.
  - intros p P1 P2. apply Z.eqb_neq in P1, P2. now rewrite P1, P2.
Qed.

(** The four GPIO calls of [terminate_security_system], all going through. *)
Lemma terminate_gpio s :
  gpio_works w s 4 ->
  exists s1,
    gpio_seq [GPIO_setup w laser_module; GPIO_output w laser_module LOW;
              GPIO_setup w buzzer; GPIO_output w buzzer LOW] s = (Ok None, s1) /\
    s1 = set_pin_level (pin_level s1) (set_gpio_calls (gpio_calls s + 4) s) /\
    pin_level s1 (GPIO_PINS w buzzer) = LOW /\
    pin_level s1 (GPIO_PINS w laser_module) = LOW /\
    (forall p, p <> GPIO_PINS w laser_module -> p <> GPIO_PINS w buzzer ->
       pin_level s1 p = pin_level s p).
Proof.
  intro W.
  pose proof (gpio_works_nth w s 4 0 W ltac:(lia)) as E0.
  pose proof (gpio_works_nth w s 4 1 W ltac:(lia)) as E1.
  pose proof (gpio_works_nth w s 4 2 W ltac:(lia)) as E2.
  pose proof (gpio_works_nth w s 4 3 W ltac:(lia)) as E3.
  cbn [Nat.add] in *.
  eexists. split.
  { gpio_ok E0. gpio_ok E1. gpio_ok E2. gpio_ok E3. reflexivity. }
  st_simpl. replace (gpio_calls s + 4) with (S (S (S (S (gpio_calls s))))) by lia.
  split; [reflexivity|]. rewrite Z.eqb_refl.
  split; [reflexivity|]. split.
  - destruct (_ =? _)%Z; [reflexivity | now rewrite Z.eqb_refl].
  - intros p P1 P2. apply Z.eqb_neq in P1, P2. now rewrite P1, P2.
Qed.

(** What follows the GPIO calls when none raised: the flag, the log entry
    and the notification. *)
Lemma security_switch_tail (flag : bool) event_type message
    (text : string -> string) (reply user_name : string) s1 :
  let m := (modify (set_security_system_active flag) ;;
            log_event w event_type message (Some user_name) None ;;
            t <- now w ;;
            add_pending_notification w (text (Datetime.strftime_HMS t)) None ;;
            ret reply) in
  fst (m s1) = Ok reply /\
  security_system_active (snd (m s1)) = flag /\
  pin_level (snd (m s1)) = pin_level s1 /\
  gpio_calls (snd (m s1)) = gpio_calls s1 /\
  home_devices (snd (m s1)) = home_devices s1 /\
  (exists n,
     ntf_text n = text (Datetime.strftime_HMS (datetime_now w (S (clock_calls s1)))) /\
     pending_notifications (snd (m s1))
       = Py.last_n 100 (pending_notifications s1 ++ [n])) /\
  (io_error w (io_calls s1) = None ->
   exists entry,
     log_event_type entry = event_type /\ log_message entry = message /\
     log_user_name entry = Some user_name /\
     log_lines (snd (m s1)) = (log_lines s1 ++ [EntryLine entry])%list).
Proof.
  intro m. subst m.
  erewrite bind_ok by reflexivity.
  erewrite bind_ok by apply log_event_run.
  erewrite bind_ok by reflexivity.
  cbv zeta. st_simpl.
  destruct (io_error w (io_calls s1)) eqn:IO; st_simpl;
    match goal with
    | |- context [bind (add_pending_notification w ?tx None) _ ?s4] =>
        destruct (returns_add_pending_notification w tx None s4) as ([] & s5 & E5);
        pose proof (add_pending_notification_appends w tx None s4) as (n & N1 & N2);
        pose proof (frames_add_pending_notification w security_system_active tx None
                      ltac:(ign) ltac:(ign) ltac:(ign) ltac:(ign) s4) as F1;
        pose proof (frames_add_pending_notification w pin_level tx None
                      ltac:(ign) ltac:(ign) ltac:(ign) ltac:(ign) s4) as F2;
        pose proof (frames_add_pending_notification w gpio_calls tx None
                      ltac:(ign) ltac:(ign) ltac:(ign) ltac:(ign) s4) as F3;
        pose proof (frames_add_pending_notification w home_devices tx None
                      ltac:(ign) ltac:(ign) ltac:(ign) ltac:(ign) s4) as F4;
        pose proof (frames_add_pending_notification w log_lines tx None
                      ltac:(ign) ltac:(ign) ltac:(ign) ltac:(ign) s4) as F5;
        rewrite (bind_ok _ _ _ _ _ E5); rewrite E5 in *
    end;
    cbn [ret fst snd] in *; rewrite F1, F2, F3, F4, F5, N2; st_simpl;
    (split; [reflexivity|]); repeat split; try reflexivity; try discriminate;
    try (exists n; now rewrite N1).
  intros _.
  exists {| log_timestamp := isoformat w (datetime_now w (clock_calls s1));
            log_event_type := event_type;
            log_message := message;
            log_user_name := Some user_name;
            log_user_id := None |}.
  repeat split.
Qed.

End Arming.

(** X16.  On a Raspberry Pi whose next five GPIO calls go through,
    [initialize_security_system] arms the system: the flag is set, the
    buzzer pin is low, the laser pin is high, no other pin is written, and
    one shield notification with the user and the time is appended to the
    pending notifications (subject to the cap).  The activation is logged
    when the log file can be written. *)
Theorem arming_on_hardware w user_name s :
  GPIO_AVAILABLE w = true ->
  gpio_works w s 5 ->
  let r := initialize_security_system w user_name s in
  fst r = Ok "✅ Home Security System INITIALIZED. Laser module activated and monitoring for intruders." /\
  security_system_active (snd r) = true /\
  gpio_calls (snd r) = gpio_calls s + 5 /\
  pin_level (snd r) (GPIO_PINS w buzzer) = LOW /\
  (GPIO_PINS w laser_module <> GPIO_PINS w buzzer ->
   pin_level (snd r) (GPIO_PINS w laser_module) = HIGH) /\
  (forall p, p <> GPIO_PINS w laser_module -> p <> GPIO_PINS w buzzer ->
     pin_level (snd r) p = pin_level s p) /\
  home_devices (snd r) = home_devices s /\
  (exists n,
     ntf_text n = "[NOTIFICATION] 🛡️ " ++ user_name
                    ++ ": Home Security System INITIALIZED at "
                    ++ Datetime.strftime_HMS (datetime_now w (S (clock_calls s))) /\
     pending_notifications (snd r)
       = Py.last_n 100 (pending_notifications s ++ [n])) /\
  (io_error w (io_calls s) = None ->
   exists entry,
     log_event_type entry = "security_system_activated" /\
     log_user_name entry = Some user_name /\
     log_lines (snd r) = (log_lines s ++ [EntryLine entry])%list).
Proof.
  intros G W r. subst r. unfold initialize_security_system. rewrite G. cbn [negb].
  destruct (initialize_gpio w s W) as (s1 & E & S1 & P1 & P2 & P3).
  rewrite (bind_ok _ _ _ _ _ E). cbv beta iota.
  pose proof (security_switch_tail w true "security_system_activated"
                ("Home security system activated by " ++ user_name)
                (fun current_time =>
                   "[NOTIFICATION] 🛡️ " ++ user_name
                     ++ ": Home Security System INITIALIZED at " ++ current_time)
                "✅ Home Security System INITIALIZED. Laser module activated and monitoring for intruders."
                user_name s1) as T.
  cbv zeta beta in T. destruct T as (T1 & T2 & T3 & T4 & T5 & T6 & T7).
  assert (C : clock_calls s1 = clock_calls s) by now rewrite S1.
  assert (I : io_calls s1 = io_calls s) by now rewrite S1.
  assert (Q : pending_notifications s1 = pending_notifications s) by now rewrite S1.
  assert (L : log_lines s1 = log_lines s) by now rewrite S1.
  assert (H : home_devices s1 = home_devices s) by now rewrite S1.
  assert (N : gpio_calls s1 = gpio_calls s + 5) by now rewrite S1.
  rewrite T3, T4, T5, N, H.
  rewrite C, Q in T6. rewrite I, L in T7.
  repeat split; auto.
  intro IO. destruct (T7 IO) as (entry & A1 & _ & A2 & A3). now exists entry.
Qed.

Lemma arming_on_hardware_witness :
  security_system_active (snd (initialize_security_system raspberry "Alice" initial_state))
    = true /\
  pin_level (snd (initialize_security_system raspberry "Alice" initial_state)) 27 = HIGH.
Proof.
  destruct (arming_on_hardware raspberry "Alice" initial_state eq_refl
              (fun j _ => eq_refl)) as (_ & A & _ & _ & B & _).
  split; [exact A | apply B; discriminate].
Defined.

(** X17.  On a Raspberry Pi whose next four GPIO calls go through,
    [terminate_security_system] disarms the system: the flag is cleared,
    laser and buzzer pins are low, no other pin is written, and one shield
    notification with the user and the time is appended to the pending
    notifications.  It does so whether or not the system was armed. *)
Theorem disarming_on_hardware w user_name s :
  GPIO_AVAILABLE w = true ->
  gpio_works w s 4 ->
  let r := terminate_security_system w user_name s in
  fst r = Ok "✅ Home Security System TERMINATED. All modules deactivated." /\
  security_system_active (snd r) = false /\
  gpio_calls (snd r) = gpio_calls s + 4 /\
  pin_level (snd r) (GPIO_PINS w buzzer) = LOW /\
  pin_level (snd r) (GPIO_PINS w laser_module) = LOW /\
  (forall p, p <> GPIO_PINS w laser_module -> p <> GPIO_PINS w buzzer ->
     pin_level (snd r) p = pin_level s p) /\
  home_devices (snd r) = home_devices s /\
  (exists n,
     ntf_text n = "[NOTIFICATION] 🛡️ " ++ user_name
                    ++ ": Home Security System TERMINATED at "
                    ++ Datetime.strftime_HMS (datetime_now w (S (clock_calls s))) /\
     pending_notifications (snd r)
       = Py.last_n 100 (pending_notifications s ++ [n])) /\
  (io_error w (io_calls s) = None ->
   exists entry,
     log_event_type entry = "security_system_deactivated" /\
     log_user_name entry = Some user_name /\
     log_lines (snd r) = (log_lines s ++ [EntryLine entry])%list).
Proof.
  intros G W r. subst r. unfold terminate_security_system. rewrite G. cbn [negb].
  destruct (terminate_gpio w s W) as (s1 & E & S1 & P1 & P2 & P3).
  rewrite (bind_ok _ _ _ _ _ E). cbv beta iota.
  pose proof (security_switch_tail w false "security_system_deactivated"
                ("Home security system deactivated by " ++ user_name)
                (fun current_time =>
                   "[NOTIFICATION] 🛡️ " ++ user_name
                     ++ ": Home Security System TERMINATED at " ++ current_time)
                "✅ Home Security System TERMINATED. All modules deactivated."
                user_name s1) as T.
  cbv zeta beta in T. destruct T as (T1 & T2 & T3 & T4 & T5 & T6 & T7).
  assert (C : clock_calls s1 = clock_calls s) by now rewrite S1.
  assert (I : io_calls s1 = io_calls s) by now rewrite S1.
  assert (Q : pending_notifications s1 = pending_notifications s) by now rewrite S1.
  assert (L : log_lines s1 = log_lines s) by now rewrite S1.
  assert (H : home_devices s1 = home_devices s) by now rewrite S1.
  assert (N : gpio_calls s1 = gpio_calls s + 4) by now rewrite S1.
  rewrite T3, T4, T5, N, H.
  rewrite C, Q in T6. rewrite I, L in T7.
  repeat split; auto.
  intro IO. destruct (T7 IO) as (entry & A1 & _ & A2 & A3). now exists entry.
Qed.

Lemma disarming_on_hardware_witness :
  security_system_active (snd (terminate_security_system raspberry "Alice" initial_state))
    = false.
Proof.
  destruct (disarming_on_hardware raspberry "Alice" initial_state eq_refl
              (fun j _ => eq_refl)) as (_ & A & _).
  exact A.
Defined.

Section Failing_switch.

Variable w : World.

Lemma initialize_gpio_fails s k e :
  k < 5 -> gpio_works w s k -> gpio_error w (k + gpio_calls s) = Some e ->
  exists s1,
    gpio_seq [GPIO_setup w laser_module; GPIO_output w laser_module HIGH;
              GPIO_setup w ldr_sensor;
              GPIO_setup w buzzer; GPIO_output w buzzer LOW] s = (Ok (Some e), s1) /\
    s1 = set_pin_level (pin_level s1) (set_gpio_calls (S (k + gpio_calls s)) s) /\
    (k < 2 -> forall p, pin_level s1 p = pin_level s p) /\
    (2 <= k -> pin_level s1 (GPIO_PINS w laser_module) = HIGH).
Proof.
  intros K W F.
  destruct k as [|[|[|[|[|k]]]]]; [| | | | |lia].
  - cbn [Nat.add] in *. eexists. split; [gpio_fails F; reflexivity|].
    st_simpl. repeat split; intros; try lia; reflexivity.
  - pose proof (gpio_works_nth w s _ 0 W ltac:(lia)) as E0.
    cbn [Nat.add] in *. eexists.
    split; [gpio_ok E0; gpio_fails F; reflexivity|].
    st_simpl. repeat split; intros; try lia; reflexivity.
  - pose proof (gpio_works_nth w s _ 0 W ltac:(lia)) as E0.
    pose proof (gpio_works_nth w s _ 1 W ltac:(lia)) as E1.
    cbn [Nat.add] in *. eexists.
    split; [gpio_ok E0; gpio_ok E1; gpio_fails F; reflexivity|].
    st_simpl. repeat split; intros; try lia; now rewrite ?Z.eqb_refl.
  - pose proof (gpio_works_nth w s _ 0 W ltac:(lia)) as E0.
    pose proof (gpio_works_nth w s _ 1 W ltac:(lia)) as E1.
    pose proof (gpio_works_nth w s _ 2 W ltac:(lia)) as E2.
    cbn [Nat.add] in *. eexists.
    split; [gpio_ok E0; gpio_ok E1; gpio_ok E2; gpio_fails F; reflexivity|].
    st_simpl. repeat split; intros; try lia; now rewrite ?Z.eqb_refl.
  - pose proof (gpio_works_nth w s _ 0 W ltac:(lia)) as E0.
    pose proof (gpio_works_nth w s _ 1 W ltac:(lia)) as E1.
    pose proof (gpio_works_nth w s _ 2 W ltac:(lia)) as E2.
    pose proof (gpio_works_nth w s _ 3 W ltac:(lia)) as E3.
    cbn [Nat.add] in *. eexists.
    split; [gpio_ok E0; gpio_ok E1; gpio_ok E2; gpio_ok E3; gpio_fails F; reflexivity|].
    st_simpl. repeat split; intros; try lia; now rewrite ?Z.eqb_refl.
Qed.

Lemma terminate_gpio_fails s k e :
  k < 4 -> gpio_works w s k -> gpio_error w (k + gpio_calls s) = Some e ->
  exists s1,
    gpio_seq [GPIO_setup w laser_module; GPIO_output w laser_module LOW;
              GPIO_setup w buzzer; GPIO_output w buzzer LOW] s = (Ok (Some e), s1) /\
    s1 = set_pin_level (pin_level s1) (set_gpio_calls (S (k + gpio_calls s)) s) /\
    (k < 2 -> forall p, pin_level s1 p = pin_level s p) /\
    (2 <= k -> pin_level s1 (GPIO_PINS w laser_module) = LOW).
Proof.
  intros K W F.
  destruct k as [|[|[|[|k]]]]; [| | | |lia].
  - cbn [Nat.add] in *. eexists. split; [gpio_fails F; reflexivity|].
    st_simpl. repeat split; intros; try lia; reflexivity.
  - pose proof (gpio_works_nth w s _ 0 W ltac:(lia)) as E0.
    cbn [Nat.add] in *. eexists.
    split; [gpio_ok E0; gpio_fails F; reflexivity|].
    st_simpl. repeat split; intros; try lia; reflexivity.
  - pose proof (gpio_works_nth w s _ 0 W ltac:(lia)) as E0.
    pose proof (gpio_works_nth w s _ 1 W ltac:(lia)) as E1.
    cbn [Nat.add] in *. eexists.
    split; [gpio_ok E0; gpio_ok E1; gpio_fails F; reflexivity|].
    st_simpl. repeat split; intros; try lia; now rewrite ?Z.eqb_refl.
  - pose proof (gpio_works_nth w s _ 0 W ltac:(lia)) as E0.
    pose proof (gpio_works_nth w s _ 1 W ltac:(lia)) as E1.
    pose proof (gpio_works_nth w s _ 2 W ltac:(lia)) as E2.
    cbn [Nat.add] in *. eexists.
    split; [gpio_ok E0; gpio_ok E1; gpio_ok E2; gpio_fails F; reflexivity|].
    st_simpl. repeat split; intros; try lia; now rewrite ?Z.eqb_refl.
Qed.

End Failing_switch.

(** X18.  When a GPIO call of [initialize_security_system] or
    [terminate_security_system] raises, the reply carries the text of the
    exception and nothing but pins and the count of GPIO calls has changed:
    the flag, the log and the notifications are as before.  The calls made
    before the failure are not undone: from the third call on the laser has
    already been switched, high by a failed arming (while the system stays
    disarmed) and low by a failed disarming (while it stays armed). *)
Theorem security_switch_failure w user_name s k e :
  GPIO_AVAILABLE w = true ->
  gpio_works w s k ->
  gpio_error w (gpio_calls s + k) = Some e ->
  (k < 5 ->
   let r := initialize_security_system w user_name s in
   fst r = Ok ("⚠️ Error initializing security system: " ++ e) /\
   snd r = set_pin_level (pin_level (snd r))
             (set_gpio_calls (gpio_calls s + k + 1) s) /\
   (k < 2 -> forall p, pin_level (snd r) p = pin_level s p) /\
   (2 <= k -> pin_level (snd r) (GPIO_PINS w laser_module) = HIGH)) /\
  (k < 4 ->
   let r := terminate_security_system w user_name s in
   fst r = Ok ("⚠️ Error terminating security system: " ++ e) /\
   snd r = set_pin_level (pin_level (snd r))
             (set_gpio_calls (gpio_calls s + k + 1) s) /\
   (k < 2 -> forall p, pin_level (snd r) p = pin_level s p) /\
   (2 <= k -> pin_level (snd r) (GPIO_PINS w laser_module) = LOW)).
Proof.
  intros G W F. rewrite Nat.add_comm in F.
  replace (gpio_calls s + k + 1) with (S (k + gpio_calls s)) by lia.
  split; intros K r; subst r.
  - unfold initialize_security_system. rewrite G. cbn [negb].
    destruct (initialize_gpio_fails w s k e K W F) as (s1 & E & S1 & P1 & P2).
    rewrite (bind_ok _ _ _ _ _ E). cbv beta iota. cbn [ret fst snd]. auto.
  - unfold terminate_security_system. rewrite G. cbn [negb].
    destruct (terminate_gpio_fails w s k e K W F) as (s1 & E & S1 & P1 & P2).
    rewrite (bind_ok _ _ _ _ _ E). cbv beta iota. cbn [ret fst snd]. auto.
Qed.

Lemma security_switch_failure_witness :
  fst (initialize_security_system broken_gpio "Alice" initial_state)
    = Ok ("⚠️ Error initializing security system: " ++ "GPIO failure") /\
  security_system_active (snd (initialize_security_system broken_gpio "Alice" initial_state))
    = false.
Proof.
  destruct (security_switch_failure broken_gpio "Alice" initial_state 0 "GPIO failure"
              eq_refl ltac:(intros j H; lia) eq_refl)
    as (P & _).
  destruct (P ltac:(lia)) as (A & B & _).
  split; [exact A | now rewrite B].
Defined.

(** ** The sensor check *)

Section Sensor.

Variable w : World.

Lemma GPIO_input_run name s :
  GPIO_input w name s =
  (Ok (match gpio_error w (gpio_calls s) with
       | Some m => inl m
       | None => inr (gpio_input w (gpio_calls s))
       end),
   set_gpio_calls (S (gpio_calls s)) s).
Proof. unfold GPIO_input. run. destruct (gpio_error w (gpio_calls s)); reflexivity. Qed.

(** The alert, from the state [s1] in which the buzzer has been switched on. *)
Lemma alert_tail text s1 :
  let m := (t <- now w ;;
            add_pending_notification w (text (Datetime.strftime_HMS t)) None ;;
            GPIO_output w buzzer LOW ;;
            ret tt) in
  (exists a,
     ntf_text a = text (Datetime.strftime_HMS (datetime_now w (clock_calls s1))) /\
     pending_notifications (snd (m s1))
       = Py.last_n 100 (pending_notifications s1 ++ [a])) /\
  gpio_calls (snd (m s1)) = S (gpio_calls s1) /\
  security_system_active (snd (m s1)) = security_system_active s1 /\
  (gpio_error w (gpio_calls s1) = None ->
   pin_level (snd (m s1)) (GPIO_PINS w buzzer) = LOW) /\
  (gpio_error w (gpio_calls s1) <> None ->
   pin_level (snd (m s1)) = pin_level s1).
Proof.
  intro m. subst m.
  erewrite bind_ok by reflexivity.
  set (tx := text _). set (s2 := set_clock_calls _ s1).
  destruct (returns_add_pending_notification w tx None s2) as ([] & s3 & E3).
  pose proof (add_pending_notification_appends w tx None s2) as (a & N1 & N2).
  pose proof (frames_add_pending_notification w security_system_active tx None
                ltac:(ign) ltac:(ign) ltac:(ign) ltac:(ign) s2) as F1.
  pose proof (frames_add_pending_notification w pin_level tx None
                ltac:(ign) ltac:(ign) ltac:(ign) ltac:(ign) s2) as F2.
  pose proof (frames_add_pending_notification w gpio_calls tx None
                ltac:(ign) ltac:(ign) ltac:(ign) ltac:(ign) s2) as F3.
  rewrite (bind_ok _ _ _ _ _ E3). rewrite E3 in *. cbn [snd] in *.
  subst s2. st_simpl. cbv beta.
  destruct (gpio_error w (gpio_calls s1)) as [e|] eqn:G.
  - assert (O : GPIO_output w buzzer LOW s3
                 = (Ok (Some e), set_gpio_calls (S (gpio_calls s3)) s3))
      by (apply GPIO_output_fails; rewrite F3; exact G).
    rewrite (bind_ok _ _ _ _ _ O).
    cbn [ret snd]. st_simpl. rewrite N2, F1, F2, F3.
    repeat split; try discriminate. now exists a.
  - assert (O : GPIO_output w buzzer LOW s3
                 = (Ok None,
                    set_pin_level
                      (fun p => if (p =? GPIO_PINS w buzzer)%Z then LOW
                                else pin_level s3 p)
                      (set_gpio_calls (S (gpio_calls s3)) s3)))
      by (apply GPIO_output_ok; rewrite F3; exact G).
    rewrite (bind_ok _ _ _ _ _ O).
    cbn [ret snd]. st_simpl. rewrite N2, F1, F3, Z.eqb_refl.
    repeat split.
    + now exists a.
    + intro C. now elim C.
Qed.

(** X19.  One check of the sensor.  A disarmed system, or one without a
    GPIO library, is not looked at.  An armed system reads the sensor once;
    when the reading raises or is low nothing else happens.  When it is
    high the buzzer is switched on: if that call raises the alert is
    dropped; otherwise one notification that begins with [ALERT] is
    appended to the pending notifications and the buzzer is switched off
    again, unless that last call raises, in which case it stays on.  The
    check never disarms the system and never raises. *)
Theorem sensor_check s :
  let r := check_security_system w s in
  let n := gpio_calls s in
  fst r = Ok tt /\
  (security_system_active s = false \/ GPIO_AVAILABLE w = false -> snd r = s) /\
  (security_system_active s = true -> GPIO_AVAILABLE w = true ->
   (gpio_error w n <> None \/ gpio_input w n = LOW ->
    snd r = set_gpio_calls (S n) s) /\
   (gpio_error w n = None -> gpio_input w n = HIGH ->
    (gpio_error w (S n) <> None -> snd r = set_gpio_calls (S (S n)) s) /\
    (gpio_error w (S n) = None ->
     (exists a,
        ntf_text a = "[ALERT] 🚨 Suspicious activity detected by Home Security System at "
                       ++ Datetime.strftime_HMS (datetime_now w (clock_calls s)) /\
        pending_notifications (snd r)
          = Py.last_n 100 (pending_notifications s ++ [a])) /\
     gpio_calls (snd r) = S (S (S n)) /\
     security_system_active (snd r) = true /\
     (gpio_error w (S (S n)) = None ->
      pin_level (snd r) (GPIO_PINS w buzzer) = LOW) /\
     (gpio_error w (S (S n)) <> None ->
      pin_level (snd r) (GPIO_PINS w buzzer) = HIGH)))).
Proof.
  intros r n. subst r.
  split; [apply returns_unit, returns_check_security_system|].
  unfold check_security_system. erewrite bind_ok by reflexivity.
  split.
  { intros [A | G]; [rewrite A | rewrite G]; cbn [negb orb]; [reflexivity|].
    now rewrite orb_true_r. }
  intros A G. rewrite A, G. cbn [negb orb].
  rewrite (bind_ok _ _ _ _ _ (GPIO_input_run ldr_sensor s)). fold n.
  split.
  { intros [E | L].
    - destruct (gpio_error w n); [reflexivity | now elim E].
    - destruct (gpio_error w n); [reflexivity|]. now rewrite L. }
  intros E H. rewrite E, H. unfold HIGH. cbv beta iota.
  destruct (gpio_error w (S n)) as [e|] eqn:E1.
  - erewrite bind_ok by (apply GPIO_output_fails; exact E1).
    cbn [ret snd]. split; [reflexivity | discriminate].
  - erewrite bind_ok by (apply GPIO_output_ok; exact E1).
    cbv beta iota. split; [intro C; now elim C | intros _].
    match goal with
    | |- context [bind (now w) _ ?s1] =>
        pose proof (alert_tail
          (fun current_time =>
             "[ALERT] 🚨 Suspicious activity detected by Home Security System at "
               ++ current_time) s1) as T
    end.
    cbv zeta beta in T. st_simpl. destruct T as (T1 & T2 & T3 & T4 & T5).
    fold n in T2, T4, T5 |- *.
    split; [exact T1|]. split; [exact T2|]. split; [now rewrite T3|].
    split; [exact T4|].
    intro C. rewrite (T5 C). now rewrite Z.eqb_refl.
Qed.

End Sensor.

(** ** Scheduling, then ticking *)

Section Ticking.

Variable w : World.

Lemma returns_security_tick : returns (security_tick w).
Proof. unfold security_tick. returns_auto; apply returns_check_security_system. Qed.








End Ticking.





(** ** Recent events *)




(** ** The console window *)

Lemma no_repeat_tl l : no_repeat l -> no_repeat (tl l).
Proof. destruct l as [|x [|y l]]; cbn; tauto. Qed.

Lemma no_repeat_snoc l x :
  no_repeat l -> (l = [] \/ last l "" <> x) -> no_repeat (l ++ [x]).
Proof.
  induction l as [|a l IH]; intros N H; [exact I|].
  destruct l as [|b l].
  - cbn in *. destruct H as [H | H]; [discriminate | tauto].
  - cbn [app no_repeat] in *. destruct N as [N1 N2]. split; [exact N1|].
    apply IH; [exact N2|]. right. destruct H as [H | H]; [discriminate | exact H].
Qed.

(** X23.  [add_console_line] keeps the console a window of at most 50
    lines in which no line stands twice in a row: an empty line and a line
    equal to the last one are ignored, any other line becomes the last one,
    and the first line goes when that makes 51. *)
Theorem console_window line console_lines :
  length console_lines <= 50 ->
  no_repeat console_lines ->
  let r := add_console_line line console_lines in
  length r <= 50 /\
  no_repeat r /\
  (line = "" -> r = console_lines) /\
  (console_lines <> [] -> last console_lines "" = line -> r = console_lines) /\
  (line <> "" -> (console_lines = [] \/ last console_lines "" <> line) ->
   last r "" = line /\
   (length console_lines < 50 -> r = (console_lines ++ [line])%list) /\
   (length console_lines = 50 -> r = (tl console_lines ++ [line])%list)).
Proof.
  intros L N r. subst r. unfold add_console_line.
  destruct (String.eqb_spec line "") as [E | E]; cbn [negb andb].
  { repeat split; auto; contradiction. }
  assert (F : (match console_lines with
               | [] => true
               | _ => negb (String.eqb (last console_lines "") line)
               end = true) <-> (console_lines = [] \/ last console_lines "" <> line)).
  { destruct console_lines as [|x l]; [intuition|].
    rewrite negb_true_iff, String.eqb_neq. intuition discriminate. }
  destruct (match console_lines with [] => true | _ => _ end) eqn:Fr.
  - assert (H : console_lines = [] \/ last console_lines "" <> line) by now apply F.
    assert (A : length (console_lines ++ [line]) = S (length console_lines))
      by (rewrite length_app; cbn; lia).
    destruct (50 <? length (console_lines ++ [line]))%nat eqn:C.
    + apply Nat.ltb_lt in C.
      assert (T : tl (console_lines ++ [line]) = (tl console_lines ++ [line])%list).
      { destruct console_lines; [cbn in *; lia | reflexivity]. }
      split; [destruct (console_lines ++ [line])%list; cbn in *; lia|].
      split; [apply no_repeat_tl; now apply no_repeat_snoc|].
      split; [intro; contradiction|].
      split; [intros _ K; destruct H as [H | H]; [subst; cbn in *; lia | contradiction]|].
      intros _ _. rewrite T. split; [apply last_last|].
      split; [intro; lia | reflexivity].
    + apply Nat.ltb_ge in C.
      split; [exact C|]. split; [now apply no_repeat_snoc|].
      split; [intro; contradiction|].
      split; [intros K1 K2; destruct H as [H | H]; contradiction|].
      intros _ _. split; [apply last_last|]. split; [reflexivity | intro; lia].
  - assert (H : ~ (console_lines = [] \/ last console_lines "" <> line)).
    { intro K. apply F in K. congruence. }
    repeat split; auto; try lia; intros; now elim H.
Qed.

Lemma console_window_witness :
  add_console_line "Server started" ["Loading"; "Server started"]
    = ["Loading"; "Server started"].
Proof.
  destruct (console_window "Server started" ["Loading"; "Server started"]
              ltac:(simpl; lia) ltac:(simpl; split; [discriminate | exact I]))
    as (_ & _ & _ & P & _).
  apply P; [discriminate | reflexivity].
Defined.

(** ** What a request broadcasts *)

Section Broadcast.

Variable w : World.




End Broadcast.



(** ** The properties on concrete platforms *)

Lemma relay_follows_the_report_witness :
  pin_level (snd (control_gpio_device flaky_gpio light on initial_state)) 23 = LOW.
Proof.
  destruct (relay_follows_the_report flaky_gpio light on initial_state) as (_ & P).
  destruct (P eq_refl) as (_ & Q & _).
  exact (proj1 (Q eq_refl)).
Defined.

Lemma save_commits_at_first_success_witness :
  snd (save_chat_ids locked_disk initial_state) = set_io_calls (0 + 3) initial_state.
Proof.
  apply (proj2 (proj2 (save_commits_at_first_success locked_disk
                         (fun s => set_chat_ids_file (Holds (chat_ids s)) s)
                         initial_state))).
  intros j Hj. destruct j as [|[|[|j]]]; [discriminate | discriminate | discriminate | lia].
Defined.

Lemma clear_then_poll_witness :
  fst (get_notifications simulation
         (snd (clear_pending_notifications simulation full_state))) = Ok ([], 0).
Proof.
  destruct (clear_then_poll simulation full_state) as (_ & P & _).
  exact (P eq_refl eq_refl).
Defined.

Lemma add_chat_id_keeps_a_set_witness :
  exists ids,
    chat_ids_file (snd (add_chat_id simulation 7 initial_state)) = Holds ids /\
    In 7%Z ids.
Proof.
  destruct (add_chat_id_keeps_a_set simulation 7 initial_state)
    as (_ & _ & _ & _ & _ & _ & P).
  destruct (P ltac:(intros []) eq_refl) as (ids & F & M).
  exists ids. split; [exact F | apply M; now left].
Defined.


Lemma sensor_check_witness :
  exists a,
    ntf_text a
      = "[ALERT] 🚨 Suspicious activity detected by Home Security System at 12:00:00" /\
    pending_notifications (snd (check_security_system raspberry armed_state)) = [a].
Proof.
  destruct (sensor_check raspberry armed_state) as (_ & _ & P).
  destruct (P eq_refl eq_refl) as (_ & Q).
  destruct (Q eq_refl eq_refl) as (_ & R).
  destruct (R eq_refl) as ((a & A1 & A2) & _).
  exists a. split; [exact A1 | exact A2].
Defined.

